(** * Crowd/m.py: download of the YOLOv8n weights, ONNX export, verification

    A shallow embedding of the script [src/Crowd/m.py].  The script is a
    sequence of calls into [os] and into the ultralytics package, wrapped in
    one [try]/[except Exception].  The embedding keeps that shape:

    - the filesystem is a finite map from relative paths to nodes;
    - [os.path.exists], [os.makedirs] and [os.rename] are functions on that
      map which return either a value or a raised exception;
    - the ultralytics entry points [YOLO(...)] and [model.export(...)] are
      not code of this repository; they are taken as parameters (a record
      of two functions on the filesystem) and every theorem quantifies over
      them;
    - the program runs in a small monad that threads the filesystem, may
      raise, and records the console lines and the library calls it makes. *)

From stdpp Require Import gmap strings list fin_maps.
From Stdlib Require Import ZArith Ascii String.

Local Open Scope string_scope.

(** ** Exceptions and results *)

(** A raised Python exception: the class name, [str(e)], and whether the
    class derives from [Exception].  [KeyboardInterrupt], [SystemExit] and
    [GeneratorExit] derive from [BaseException] only; a handler
    [except Exception as e] does not match them. *)
Record exn : Type := mkRaised {
  exn_type : string;
  exn_str : string;
  exn_is_Exception : bool
}.

(** An instance of a class that derives from [Exception]: [OSError] and
    its subclasses, [ImportError], and the like. *)
Definition mkExn (type str : string) : exn := mkRaised type str true.

Inductive result (A : Type) : Type :=
| Ok (a : A)
| Raise (e : exn).
Arguments Ok {A} a.
Arguments Raise {A} e.

(** ** The filesystem *)

Inductive node : Type :=
| File (data : list Byte.byte)
| Dir.

(** Keys are relative paths with [/] as separator and no trailing
    separator, as the script writes them: ["models"], ["yolov8n.pt"],
    ["models/yolov8n.pt"]. *)
Abbreviation FS := (gmap string node).

Definition slash : ascii := "/"%char.

(** [split_last_slash p] cuts [p] at its last [/]; [None] when [p] has no
    separator. *)
Fixpoint split_last_slash (p : string) : option (string * string) :=
  match p with
  | EmptyString => None
  | String c rest =>
      match split_last_slash rest with
      | Some (h, t) => Some (String c h, t)
      | None => if Ascii.eqb c slash then Some (EmptyString, rest) else None
      end
  end.

Fixpoint all_slashes (s : string) : bool :=
  match s with
  | EmptyString => true
  | String c r => Ascii.eqb c slash && all_slashes r
  end.

Fixpoint rstrip_slash (s : string) : string :=
  match s with
  | EmptyString => EmptyString
  | String c r =>
      match rstrip_slash r with
      | EmptyString => if Ascii.eqb c slash then EmptyString else String c EmptyString
      | r' => String c r'
      end
  end.

(** [os.path.split]: head and tail around the last separator; trailing
    separators are stripped from the head unless it is all separators. *)
Definition os_path_split (p : string) : string * string :=
  match split_last_slash p with
  | None => (EmptyString, p)
  | Some (h, t) =>
      let head := h +:+ "/" in
      (if all_slashes head then head else rstrip_slash head, t)
  end.

Definition os_path_dirname (p : string) : string := fst (os_path_split p).

Definition is_empty_string (s : string) : bool :=
  match s with EmptyString => true | _ => false end.

(** [under d p]: path [p] lies strictly below directory [d]. *)
Definition under (d p : string) : bool := String.prefix (d +:+ "/") p.

(** [strip_under d p] is the part of [p] after [d/], for [p] under [d]. *)
Definition strip_under (d p : string) : string :=
  String.substring (String.length d + 1) (String.length p - (String.length d + 1)) p.

Definition fs_exists (fs : FS) (p : string) : bool :=
  match fs !! p with Some _ => true | None => false end.

Definition fs_isdir (fs : FS) (p : string) : bool :=
  match fs !! p with Some Dir => true | _ => false end.

(** A directory is empty when no key lies under it. *)
Definition dir_is_empty (fs : FS) (d : string) : bool :=
  forallb (fun kv => negb (under d (fst kv))) (map_to_list fs).

(** The parent of [p] is usable when [p] has no parent component (it lives
    in the working directory) or the parent is a directory.
    The text [what] names the operands in the message of the error. *)
Definition parent_check (fs : FS) (p what : string) : result unit :=
  let head := os_path_dirname p in
  if is_empty_string head then Ok tt
  else match fs !! head with
       | Some Dir => Ok tt
       | Some (File _) =>
           Raise (mkExn "NotADirectoryError" ("[Errno 20] Not a directory: " +:+ what))
       | None =>
           Raise (mkExn "FileNotFoundError" ("[Errno 2] No such file or directory: " +:+ what))
       end.

(** [os.mkdir].  The empty name is no path. *)
Definition fs_mkdir (fs : FS) (p : string) : result unit * FS :=
  if is_empty_string p then
    (Raise (mkExn "FileNotFoundError" "[Errno 2] No such file or directory: ''"), fs)
  else
    match fs !! p with
    | Some _ => (Raise (mkExn "FileExistsError" ("[Errno 17] File exists: '" +:+ p +:+ "'")), fs)
    | None =>
        match parent_check fs p ("'" +:+ p +:+ "'") with
        | Raise e => (Raise e, fs)
        | Ok _ => (Ok tt, <[p := Dir]> fs)
        end
    end.

(** The last step of [os.makedirs]: [mkdir(name)], whose failure is
    swallowed only when [exist_ok] is set and [name] is a directory. *)
Definition fs_makedirs_last (fs : FS) (name : string) (exist_ok : bool)
  : result unit * FS :=
  match fs_mkdir fs name with
  | (Ok _, fs2) => (Ok tt, fs2)
  | (Raise e, fs2) =>
      if negb exist_ok || negb (fs_isdir fs2 name) then (Raise e, fs2) else (Ok tt, fs2)
  end.

(** [os.makedirs(name, exist_ok)]: a missing parent is created first, by a
    recursive call of which only a [FileExistsError] is passed over; a name
    that ends in [/.] is done once its parent is there.  The recursion of
    the library function is on the head of the path, which is shorter than
    the path: [fuel] bounds it, and running out of it is an error. *)
Fixpoint fs_makedirs_fuel (fuel : nat) (fs : FS) (name : string) (exist_ok : bool)
  : result unit * FS :=
  let '(head, tail) :=
    let '(h, t) := os_path_split name in
    if is_empty_string t then os_path_split h else (h, t) in
  if negb (is_empty_string head) && negb (is_empty_string tail) && negb (fs_exists fs head)
  then
    match fuel with
    | O => (Raise (mkExn "RecursionError" "maximum recursion depth exceeded"), fs)
    | S fuel' =>
        match fs_makedirs_fuel fuel' fs head exist_ok with
        | (Raise e, fs1) =>
            if String.eqb (exn_type e) "FileExistsError" then
              if String.eqb tail "." then (Ok tt, fs1)
              else fs_makedirs_last fs1 name exist_ok
            else (Raise e, fs1)
        | (Ok _, fs1) =>
            if String.eqb tail "." then (Ok tt, fs1)
            else fs_makedirs_last fs1 name exist_ok
        end
    end
  else fs_makedirs_last fs name exist_ok.

Definition fs_makedirs (fs : FS) (name : string) (exist_ok : bool) : result unit * FS :=
  fs_makedirs_fuel (String.length name) fs name exist_ok.

(** Renaming a directory moves everything below it. *)
Definition rekey (src dst p : string) : string :=
  if String.eqb p src then dst
  else if under src p then dst +:+ "/" +:+ strip_under src p
  else p.

Definition rename_msg (src dst : string) : string :=
  "'" +:+ src +:+ "' -> '" +:+ dst +:+ "'".

(** [os.rename] with the behaviour Python documents for Unix: a file
    silently replaces an existing file; a file cannot replace a directory
    nor a directory a file; a directory replaces only an empty directory. *)
Definition fs_rename (fs : FS) (src dst : string) : result unit * FS :=
  match fs !! src with
  | None =>
      (Raise (mkExn "FileNotFoundError"
                ("[Errno 2] No such file or directory: " +:+ rename_msg src dst)), fs)
  | Some n =>
      match parent_check fs dst (rename_msg src dst) with
      | Raise e => (Raise e, fs)
      | Ok _ =>
          if String.eqb src dst then (Ok tt, fs)
          else
            match n, fs !! dst with
            | File _, Some Dir =>
                (Raise (mkExn "IsADirectoryError"
                          ("[Errno 21] Is a directory: " +:+ rename_msg src dst)), fs)
            | File d, _ => (Ok tt, <[dst := File d]> (delete src fs))
            | Dir, Some (File _) =>
                (Raise (mkExn "NotADirectoryError"
                          ("[Errno 20] Not a directory: " +:+ rename_msg src dst)), fs)
            | Dir, _ =>
                if under src dst then
                  (Raise (mkExn "OSError"
                            ("[Errno 22] Invalid argument: " +:+ rename_msg src dst)), fs)
                else if negb (dir_is_empty fs dst) then
                  (Raise (mkExn "OSError"
                            ("[Errno 39] Directory not empty: " +:+ rename_msg src dst)), fs)
                else (Ok tt, kmap (rekey src dst) (delete dst fs))
            end
      end
  end.

(** ** The ultralytics package *)

(** [YOLO(path)] loads a model, downloading the weights when it does not
    find them; [model.export(format=..., imgsz=...)] writes the converted
    model.  Both may change the filesystem and both may raise; a call that
    raises may still have written files.  What they do is not decided by
    this repository. *)
Record ultralytics (Model : Type) : Type := mkUltralytics {
  YOLO : string -> FS -> result Model * FS;
  export : Model -> string -> list Z -> FS -> result unit * FS
}.
Arguments YOLO {Model} _ _ _.
Arguments export {Model} _ _ _ _ _.

(** ** What a run does: console lines and calls, in order *)

Inductive event (Model : Type) : Type :=
| EvPrint (line : string)
| EvMakedirs (name : string) (exist_ok : bool) (r : result unit)
| EvRename (src dst : string) (r : result unit)
| EvYOLO (path : string) (r : result Model)
| EvExport (m : Model) (format : string) (imgsz : list Z) (r : result unit).
Arguments EvPrint {Model} line.
Arguments EvMakedirs {Model} name exist_ok r.
Arguments EvRename {Model} src dst r.
Arguments EvYOLO {Model} path r.
Arguments EvExport {Model} m format imgsz r.

(** ** The monad of the script

    A computation takes the filesystem and gives a value or a raised
    exception, the filesystem it leaves, and the events it emitted.  When
    an exception is raised the filesystem changes made so far stay. *)
Definition M (Model A : Type) : Type := FS -> result A * FS * list (event Model).

Section Monad.
Context {Model : Type}.

Definition ret {A} (a : A) : M Model A := fun fs => (Ok a, fs, []).

Definition bind {A B} (c : M Model A) (k : A -> M Model B) : M Model B :=
  fun fs =>
    match c fs with
    | (Ok a, fs1, ev1) =>
        match k a fs1 with
        | (r, fs2, ev2) => (r, fs2, (ev1 ++ ev2)%list)
        end
    | (Raise e, fs1, ev1) => (Raise e, fs1, ev1)
    end.

(** [try: body except Exception as e: handler e].  An exception whose
    class does not derive from [Exception] is not caught. *)
Definition try_except {A} (body : M Model A) (handler : exn -> M Model A) : M Model A :=
  fun fs =>
    match body fs with
    | (Ok a, fs1, ev1) => (Ok a, fs1, ev1)
    | (Raise e, fs1, ev1) =>
        if exn_is_Exception e then
          match handler e fs1 with
          | (r, fs2, ev2) => (r, fs2, (ev1 ++ ev2)%list)
          end
        else (Raise e, fs1, ev1)
    end.

Definition print (line : string) : M Model unit :=
  fun fs => (Ok tt, fs, [EvPrint line]).

Definition os_path_exists (p : string) : M Model bool :=
  fun fs => (Ok (fs_exists fs p), fs, []).

Definition os_makedirs (name : string) (exist_ok : bool) : M Model unit :=
  fun fs =>
    match fs_makedirs fs name exist_ok with
    | (r, fs1) => (r, fs1, [EvMakedirs name exist_ok r])
    end.

Definition os_rename (src dst : string) : M Model unit :=
  fun fs =>
    match fs_rename fs src dst with
    | (r, fs1) => (r, fs1, [EvRename src dst r])
    end.

Definition call_YOLO (U : ultralytics Model) (path : string) : M Model Model :=
  fun fs =>
    match YOLO U path fs with
    | (r, fs1) => (r, fs1, [EvYOLO path r])
    end.

Definition call_export (U : ultralytics Model) (m : Model) (format : string)
    (imgsz : list Z) : M Model unit :=
  fun fs =>
    match export U m format imgsz fs with
    | (r, fs1) => (r, fs1, [EvExport m format imgsz r])
    end.
End Monad.

Notation "'do' x <- c ; k" := (bind c (fun x => k))
  (at level 10, x name, c at level 100, k at level 200).

(** ** The script *)

Definition pt_path : string := "models/yolov8n.pt".
Definition onnx_path : string := "models/yolov8n.onnx".

Section Script.
Context {Model : Type} (U : ultralytics Model).

(** Lines 17-18: move a downloaded file into the models directory. *)
Definition relocate_primary : M Model unit :=
  do b <- os_path_exists "yolov8n.pt";
  if b then os_rename "yolov8n.pt" pt_path else ret tt.

(** Lines 23-29: export to ONNX unless the output is already there. *)
Definition convert_secondary : M Model unit :=
  do b <- os_path_exists onnx_path;
  if negb b then
    do model <- call_YOLO U pt_path;
    do _ <- call_export U model "onnx" [640; 640]%Z;
    do b' <- os_path_exists "yolov8n.onnx";
    if b' then os_rename "yolov8n.onnx" onnx_path else ret tt
  else ret tt.

(** Lines 11-33: the body of the [try].  The model object of the first
    load, [pt_model], is not used again. *)
Definition download_body : M Model unit :=
  do _ <- print "Downloading YOLOv8n PyTorch model...";
  do pt_model <- call_YOLO U "yolov8n.pt";
  do _ <- relocate_primary;
  do _ <- print "Converting to ONNX format...";
  do _ <- convert_secondary;
  do _ <- print "Download complete!";
  do _ <- print ("PyTorch model saved to: " +:+ pt_path);
  print ("ONNX model saved to: " +:+ onnx_path).

(** Lines 35-38: the handler. *)
Definition download_handler (e : exn) : M Model unit :=
  do _ <- print ("Error downloading models: " +:+ exn_str e);
  do _ <- print "Please make sure you have the latest ultralytics package installed:";
  print "pip install --upgrade ultralytics".

(** Lines 5-38.  The directory is created before the [try] is entered. *)
Definition download_yolov8n_models : M Model unit :=
  do _ <- os_makedirs "models" true;
  try_except download_body download_handler.

(** Lines 42-45: the dict literal, in insertion order. *)
Definition required_files : list (string * string) :=
  [("PyTorch", pt_path); ("ONNX", onnx_path)].

(** Line 50: the f-string of the status line. *)
Definition status_line (name path : string) (exists_ : bool) : string :=
  name +:+ " model: " +:+ (if exists_ then "Found" else "Missing") +:+ " at " +:+ path.

(** Lines 48-52: the loop over [required_files.items()], with the
    variable [all_exists] as accumulator. *)
Fixpoint verify_loop (items : list (string * string)) (all_exists : bool)
  : M Model bool :=
  match items with
  | [] => ret all_exists
  | (name, path) :: rest =>
      do exists_ <- os_path_exists path;
      do _ <- print (status_line name path exists_);
      verify_loop rest (if negb exists_ then false else all_exists)
  end.

(** Lines 40-54. *)
Definition verify_downloads : M Model bool :=
  verify_loop required_files true.

Definition msg_success : string := "All model files downloaded successfully!".
Definition msg_failure : string :=
  "Some model files failed to download. Please check errors above.".

(** Lines 56-64: the entry point. *)
Definition main : M Model unit :=
  do _ <- download_yolov8n_models;
  do ok <- verify_downloads;
  if ok then print msg_success else print msg_failure.

(** [import name], for a package that may or may not be installed. *)
Definition import_module (installed : string -> bool) (name : string) : M Model unit :=
  fun fs =>
    if installed name then (Ok tt, fs, [])
    else (Raise (mkExn "ModuleNotFoundError" ("No module named '" +:+ name +:+ "'")), fs, []).

(** Lines 1-64: the file run as a script.  Line 1 imports [os], a module
    of the standard library; lines 2-3 import two packages that have to be
    installed, of which [requests] is not used afterwards. *)
Definition script (installed : string -> bool) : M Model unit :=
  do _ <- import_module installed "ultralytics";
  do _ <- import_module installed "requests";
  main.
End Script.

(** The exit status of the interpreter: 0 when the script runs to its end,
    1 when an uncaught exception ends it.  (After [SystemExit] the
    interpreter takes the status from the exception, after
    [KeyboardInterrupt] from the signal; no statement below takes the
    status of such a run.) *)
Definition exit_status {A} (r : result A) : Z :=
  match r with Ok _ => 0%Z | Raise _ => 1%Z end.

(** ** What the statements below speak about *)

(** Event [ev] is a call into ultralytics that raised [e]. *)
Definition raised_by_collaborator {Model} (e : exn) (ev : event Model) : Prop :=
  match ev with
  | EvYOLO _ (Raise e') => e' = e
  | EvExport _ _ _ (Raise e') => e' = e
  | _ => False
  end.

(** The calls that make up a conversion: a load from the models directory
    and an export. *)
Definition is_conversion_call {Model} (ev : event Model) : bool :=
  match ev with
  | EvYOLO p _ => String.eqb p pt_path
  | EvExport _ _ _ _ => true
  | _ => false
  end.

(** The three lines the handler prints for exception [e]. *)
Definition handler_lines {Model} (e : exn) : list (event Model) :=
  [EvPrint ("Error downloading models: " +:+ exn_str e);
   EvPrint "Please make sure you have the latest ultralytics package installed:";
   EvPrint "pip install --upgrade ultralytics"].

(** What the verifier and the entry point print after the acquirer, on the
    filesystem [fs] the acquirer left. *)
Definition report_lines {Model} (fs : FS) : list (event Model) :=
  [EvPrint (status_line "PyTorch" pt_path (fs_exists fs pt_path));
   EvPrint (status_line "ONNX" onnx_path (fs_exists fs onnx_path));
   EvPrint (if fs_exists fs pt_path && fs_exists fs onnx_path
            then msg_success else msg_failure)].

(** The exception of [os.makedirs("models", exist_ok=True)] when [models]
    is a regular file. *)
Definition models_is_a_file : exn :=
  mkExn "FileExistsError" "[Errno 17] File exists: 'models'".

(** The loader and the converter succeed and put their outputs into the
    working directory: loading ["yolov8n.pt"] leaves the weights [w] there,
    loading from the models directory changes nothing, and the export
    leaves the file [o] at ["yolov8n.onnx"]. *)
Definition deposits_in_cwd {Model} (U : ultralytics Model) (w o : list Byte.byte) : Prop :=
  (forall fs, exists m, YOLO U "yolov8n.pt" fs = (Ok m, <["yolov8n.pt" := File w]> fs)) /\
  (forall fs, is_Some (fs !! pt_path) -> exists m, YOLO U pt_path fs = (Ok m, fs)) /\
  (forall m fs,
     export U m "onnx" [640; 640]%Z fs = (Ok tt, <["yolov8n.onnx" := File o]> fs)).

(** The models directory is absent or is a directory with nothing in it. *)
Definition output_dir_empty (fs : FS) : Prop :=
  (fs !! "models" = None \/ fs !! "models" = Some Dir) /\
  forall p, under "models" p = true -> fs !! p = None.

(** Path [p] is a regular file of at least one byte. *)
Definition nonempty_file (fs : FS) (p : string) : Prop :=
  match fs !! p with
  | Some (File (_ :: _)) => True
  | _ => False
  end.

(** Every exception the collaborators raise is an instance of
    [Exception]. *)
Definition raises_only_Exception {Model} (U : ultralytics Model) : Prop :=
  (forall path fs e fs', YOLO U path fs = (Raise e, fs') -> exn_is_Exception e = true) /\
  (forall m format imgsz fs e fs',
     export U m format imgsz fs = (Raise e, fs') -> exn_is_Exception e = true).

(** What the [try] of the acquirer makes of the outcome [r] of a step of
    its body, when nothing after that step raises: an exception is
    swallowed if it is an instance of [Exception], and leaves the acquirer
    if it is not. *)
Definition handled {A} (r : result A) : result unit :=
  match r with
  | Ok _ => Ok tt
  | Raise e => if exn_is_Exception e then Ok tt else Raise e
  end.

(** The last three lines of a run of the acquirer without exception. *)
Definition completion_lines {Model} : list (event Model) :=
  [EvPrint "Download complete!";
   EvPrint "PyTorch model saved to: models/yolov8n.pt";
   EvPrint "ONNX model saved to: models/yolov8n.onnx"].

Definition is_export {Model} (ev : event Model) : bool :=
  match ev with EvExport _ _ _ _ => true | _ => false end.

Definition is_load {Model} (ev : event Model) : bool :=
  match ev with EvYOLO _ _ => true | _ => false end.

(** How many events of [evs] satisfy [P]. *)
Definition count_events {Model} (P : event Model -> bool) (evs : list (event Model)) : nat :=
  List.length (List.filter P evs).

(** ** Sample collaborators and filesystems, to run the script on *)

Definition fresh_weights : list Byte.byte := [Byte.x50; Byte.x4b].
Definition old_weights : list Byte.byte := [Byte.x50; Byte.x4b; Byte.x03].
Definition onnx_bytes : list Byte.byte := [Byte.x08; Byte.x07].

(** A loader that downloads the weights into the working directory when
    asked for ["yolov8n.pt"], and an exporter that writes its output into
    the working directory.  The model object is the path it was loaded
    from. *)
Definition downloading : ultralytics string := {|
  YOLO := fun path fs =>
    if String.eqb path "yolov8n.pt"
    then (Ok path, <["yolov8n.pt" := File fresh_weights]> fs)
    else (Ok path, fs);
  export := fun _ _ _ fs => (Ok tt, <["yolov8n.onnx" := File onnx_bytes]> fs)
|}.


Definition connection_error : exn :=
  mkExn "ConnectionError" "Download failure for yolov8n.pt".

(** A loader without network: every load raises. *)
Definition offline : ultralytics string := {|
  YOLO := fun _ fs => (Raise connection_error, fs);
  export := fun _ _ _ fs => (Ok tt, fs)
|}.

Definition export_error : exn :=
  mkExn "ModuleNotFoundError" "No module named 'onnx'".

(** A loader that downloads, with an exporter that fails. *)
Definition no_onnx : ultralytics string := {|
  YOLO := YOLO downloading;
  export := fun _ _ _ fs => (Raise export_error, fs)
|}.

Definition keyboard_interrupt : exn := mkRaised "KeyboardInterrupt" "" false.

(** A download that the user interrupts: the load raises
    [KeyboardInterrupt], which does not derive from [Exception]. *)
Definition interrupted : ultralytics string := {|
  YOLO := fun _ fs => (Raise keyboard_interrupt, fs);
  export := fun _ _ _ fs => (Ok tt, fs)
|}.

(** Both packages of lines 2-3 are installed. *)
Definition all_installed (name : string) : bool := true.

(** A working directory in which [models] is a regular file. *)
Definition models_blocked : FS := {["models" := File []]}.

(** A models directory that holds both files, the weights from an earlier
    download. *)
Definition populated (weights : list Byte.byte) : FS :=
  {["models" := Dir;
    "models/yolov8n.pt" := File weights;
    "models/yolov8n.onnx" := File onnx_bytes]}.


(** ** Further notions, for the properties beyond the claims *)

(** Event [ev] is a rename that raised [e]. *)
Definition failed_rename {Model} (e : exn) (ev : event Model) : Prop :=
  match ev with
  | EvRename _ _ (Raise e') => e' = e
  | _ => False
  end.

Definition is_load_of {Model} (p : string) (ev : event Model) : bool :=
  match ev with EvYOLO q _ => String.eqb q p | _ => false end.

Definition is_rename_to {Model} (p : string) (ev : event Model) : bool :=
  match ev with EvRename _ q _ => String.eqb q p | _ => false end.

Definition is_makedirs {Model} (ev : event Model) : bool :=
  match ev with EvMakedirs _ _ _ => true | _ => false end.

(** The paths the script names. *)
Definition script_paths : list string :=
  ["models"; "yolov8n.pt"; pt_path; "yolov8n.onnx"; onnx_path].

(** The collaborators do not change what is at path [p]. *)
Definition leaves_alone {Model} (U : ultralytics Model) (p : string) : Prop :=
  (forall path fs, (YOLO U path fs).2 !! p = fs !! p) /\
  (forall m format imgsz fs, (export U m format imgsz fs).2 !! p = fs !! p).

(** The collaborators never leave a directory where the script looks for
    their output file: ["yolov8n.pt"] after the first load, and
    ["yolov8n.onnx"] after an export. *)
Definition outputs_are_files {Model} (U : ultralytics Model) : Prop :=
  (forall fs, (YOLO U "yolov8n.pt" fs).2 !! "yolov8n.pt" <> Some Dir) /\
  (forall m format imgsz fs, (export U m format imgsz fs).2 !! "yolov8n.onnx" <> Some Dir).

(** The exception of the rename of the weights onto a directory. *)
Definition weights_path_is_a_directory : exn :=
  mkExn "IsADirectoryError"
    "[Errno 21] Is a directory: 'yolov8n.pt' -> 'models/yolov8n.pt'".

Definition notes : list Byte.byte := [Byte.x68; Byte.x69].

Definition is_completion_print {Model} (ev : event Model) : bool :=
  match ev with EvPrint line => String.eqb line "Download complete!" | _ => false end.

Definition is_error_print {Model} (ev : event Model) : bool :=
  match ev with
  | EvPrint line => String.prefix "Error downloading models: " line
  | _ => false
  end.

(** A models directory in which a directory sits at the path of the
    weights. *)
Definition weights_path_blocked : FS :=
  {["models" := Dir; "models/yolov8n.pt" := Dir]}.

(** An exporter that writes next to the weights, into the models
    directory, and nothing into the working directory. *)
Definition exporting_in_place : ultralytics string := {|
  YOLO := YOLO downloading;
  export := fun _ _ _ fs => (Ok tt, <["models/yolov8n.onnx" := File onnx_bytes]> fs)
|}.

Definition stale_onnx : list Byte.byte := [Byte.x00].

(** ** Basic facts about the monad and the [os] layer *)

(** Unfold the script down to the [os] layer and the collaborators. *)
Ltac unfold_script :=
  unfold script, import_module, main, download_yolov8n_models, try_except, download_body,
    download_handler, convert_secondary, relocate_primary, verify_downloads, required_files,
    bind, ret, print, os_path_exists, os_makedirs, os_rename, call_YOLO, call_export in *;
  cbn [verify_loop bind ret print os_path_exists app fst snd negb] in *.

(** One case split on the next outcome that decides how the run goes on. *)
Ltac split_run :=
  match goal with
  | H : (_, _) = (_, _) |- _ => inversion H; subst; clear H
  | H : context [match ?x with _ => _ end] |- _ => destruct x eqn:?
  | |- context [match ?x with _ => _ end] => destruct x eqn:?
  | H : context [if ?x then _ else _] |- _ => destruct x eqn:?
  | |- context [if ?x then _ else _] => destruct x eqn:?
  end.

(** The verifier, run: two existence tests, two lines, one boolean. *)
Lemma verify_downloads_run {Model} (fs : FS) :
  verify_downloads (Model := Model) fs =
    (Ok (fs_exists fs pt_path && fs_exists fs onnx_path), fs,
     [EvPrint (status_line "PyTorch" pt_path (fs_exists fs pt_path));
      EvPrint (status_line "ONNX" onnx_path (fs_exists fs onnx_path))]).
Proof.
  unfold verify_downloads, required_files.
  cbn [verify_loop]. unfold bind, os_path_exists, print, ret.
  cbn [app]. by destruct (fs_exists fs pt_path), (fs_exists fs onnx_path).
Qed.

(** A call into ultralytics that raises ends the body of the [try] with
    that exception: nothing in the body catches it. *)
Lemma body_raise_is_result {Model} (U : ultralytics Model) fs r fs' evs e :
  download_body U fs = (r, fs', evs) ->
  Exists (raised_by_collaborator e) evs ->
  r = Raise e.
Proof.
  intros Hrun Hex. unfold_script.
  repeat split_run; cbn [app] in Hex;
    repeat match goal with
      | H : Exists _ (_ :: _) |- _ => apply Exists_cons in H; destruct H as [H|H]
      | H : Exists _ [] |- _ => by apply Exists_nil in H
      | H : raised_by_collaborator _ _ |- _ => cbn in H; try done; subst
      end; try done.
Qed.

(** [os.makedirs("models", exist_ok=True)], by what is at [models]. *)
Lemma fs_makedirs_models (fs : FS) :
  fs_makedirs fs "models" true =
    match fs !! "models" with
    | Some Dir => (Ok tt, fs)
    | Some (File _) => (Raise models_is_a_file, fs)
    | None => (Ok tt, <["models" := Dir]> fs)
    end.
Proof.
  unfold fs_makedirs.
  change (String.length "models") with 6%nat.
  cbn [fs_makedirs_fuel].
  change (os_path_split "models") with ("", "models").
  cbn [is_empty_string negb andb orb].
  unfold fs_makedirs_last, fs_mkdir, parent_check, fs_isdir.
  change (os_path_dirname "models") with "".
  cbn [is_empty_string].
  destruct (fs !! "models") as [[d|]|] eqn:E; cbn [negb orb]; rewrite ?E; try reflexivity.
Qed.

(** After a successful creation [models] is a directory and nothing else
    has changed. *)
Lemma fs_makedirs_models_ok (fs fs1 : FS) :
  fs_makedirs fs "models" true = (Ok tt, fs1) ->
  fs1 !! "models" = Some Dir /\
  (forall p, p <> "models" -> fs1 !! p = fs !! p).
Proof.
  rewrite fs_makedirs_models.
  destruct (fs !! "models") as [[d|]|] eqn:E; intros H; inversion H; subst.
  - done.
  - split; [apply lookup_insert_eq | intros p Hp; by apply lookup_insert_ne].
Qed.

(** Moving a regular file into the models directory, onto a path that is
    not a directory. *)
Lemma fs_rename_file (fs : FS) (src dst : string) (d : list Byte.byte) :
  os_path_dirname dst = "models" ->
  src <> dst ->
  fs !! src = Some (File d) ->
  fs !! "models" = Some Dir ->
  fs !! dst <> Some Dir ->
  fs_rename fs src dst = (Ok tt, <[dst := File d]> (delete src fs)).
Proof.
  intros Hparent Hne Hsrc Hdir Hdst.
  unfold fs_rename, parent_check. rewrite Hsrc, Hparent, Hdir.
  cbn [is_empty_string].
  apply String.eqb_neq in Hne. rewrite Hne.
  destruct (fs !! dst) as [[?|]|]; done.
Qed.

(** The two renames of the script, when they succeed. *)
Lemma fs_rename_primary (fs : FS) (d : list Byte.byte) :
  fs !! "yolov8n.pt" = Some (File d) ->
  fs !! "models" = Some Dir ->
  fs !! pt_path <> Some Dir ->
  fs_rename fs "yolov8n.pt" pt_path =
    (Ok tt, <[pt_path := File d]> (delete "yolov8n.pt" fs)).
Proof. by apply fs_rename_file. Qed.

Lemma fs_rename_secondary (fs : FS) (d : list Byte.byte) :
  fs !! "yolov8n.onnx" = Some (File d) ->
  fs !! "models" = Some Dir ->
  fs !! onnx_path <> Some Dir ->
  fs_rename fs "yolov8n.onnx" onnx_path =
    (Ok tt, <[onnx_path := File d]> (delete "yolov8n.onnx" fs)).
Proof. by apply fs_rename_file. Qed.

(** The [try], by the outcome of its body: an instance of [Exception] is
    turned into a normal return after the three lines of the handler;
    another exception passes. *)
Lemma try_download_outcome {Model} (U : ultralytics Model) (fs : FS) :
  try_except (download_body U) download_handler fs =
    match download_body U fs with
    | (Ok a, fs1, ev1) => (Ok a, fs1, ev1)
    | (Raise e, fs1, ev1) =>
        if exn_is_Exception e
        then (Ok tt, fs1, (ev1 ++ handler_lines e)%list)
        else (Raise e, fs1, ev1)
    end.
Proof.
  unfold try_except.
  destruct (download_body U fs) as [[[a|e] fs1] ev1]; [done|].
  by destruct (exn_is_Exception e).
Qed.

(** The entry point after an acquirer that returned. *)
Lemma main_after_acquirer {Model} (U : ultralytics Model) (fs fs' : FS) evs :
  download_yolov8n_models U fs = (Ok tt, fs', evs) ->
  main U fs = (Ok tt, fs', (evs ++ report_lines fs')%list).
Proof.
  intros Hrun. unfold main, bind at 1. rewrite Hrun.
  unfold bind. rewrite verify_downloads_run. unfold report_lines, print.
  by destruct (fs_exists fs' pt_path), (fs_exists fs' onnx_path).
Qed.

(** The entry point has no handler of its own. *)
Lemma main_acquirer_raises {Model} (U : ultralytics Model) (fs fs' : FS) evs e :
  download_yolov8n_models U fs = (Raise e, fs', evs) ->
  main U fs = (Raise e, fs', evs).
Proof. intros Hrun. unfold main, bind at 1. by rewrite Hrun. Qed.

(** Once the directory is there, the acquirer is its [try]. *)
Lemma acquirer_after_makedirs {Model} (U : ultralytics Model) (fs fs0 : FS) :
  fs_makedirs fs "models" true = (Ok tt, fs0) ->
  download_yolov8n_models U fs =
    match try_except (download_body U) download_handler fs0 with
    | (r, fs', evs) => (r, fs', EvMakedirs "models" true (Ok tt) :: evs)
    end.
Proof.
  intros Hmk. unfold download_yolov8n_models, bind, os_makedirs. rewrite Hmk.
  by destruct (try_except (download_body U) download_handler fs0) as [[r fs'] evs].
Qed.

(** An exception of [os.makedirs] leaves the acquirer as it is. *)
Lemma acquirer_makedirs_raises {Model} (U : ultralytics Model) (fs fs0 : FS) e :
  fs_makedirs fs "models" true = (Raise e, fs0) ->
  download_yolov8n_models U fs = (Raise e, fs0, [EvMakedirs "models" true (Raise e)]).
Proof.
  intros Hmk. unfold download_yolov8n_models, bind, os_makedirs. by rewrite Hmk.
Qed.

(** What [os.rename] does with a regular file whose destination lies in
    the models directory. *)
Lemma fs_rename_file_spec (fs fs' : FS) (src dst : string) (d : list Byte.byte)
    (r : result unit) :
  os_path_dirname dst = "models" ->
  src <> dst ->
  fs !! src = Some (File d) ->
  fs_rename fs src dst = (r, fs') ->
  match fs !! "models", fs !! dst with
  | Some Dir, Some (File _) | Some Dir, None =>
      r = Ok tt /\ fs' = <[dst := File d]> (delete src fs)
  | _, _ => (exists e, r = Raise e) /\ fs' = fs
  end.
Proof.
  intros Hparent Hne Hsrc.
  unfold fs_rename, parent_check. rewrite Hsrc, Hparent.
  cbn [is_empty_string].
  apply String.eqb_neq in Hne. 
  destruct (fs !! "models") as [[?|]|]; try rewrite Hne;
    destruct (fs !! dst) as [[?|]|]; intros H; inversion H; subst; eauto.
Qed.

(** Step 3 on a working directory in which ["yolov8n.pt"] is a regular
    file or absent. *)
Lemma relocate_primary_effect {Model} (fs fs' : FS) (r : result unit)
    (evs : list (event Model)) :
  fs !! "yolov8n.pt" <> Some Dir ->
  relocate_primary fs = (r, fs', evs) ->
  fs' !! onnx_path = fs !! onnx_path /\
  Forall (fun ev => is_conversion_call ev = false) evs /\
  match fs !! "yolov8n.pt", fs !! "models", fs !! pt_path with
  | Some (File d), Some Dir, Some (File _) | Some (File d), Some Dir, None =>
      r = Ok tt /\ fs' !! pt_path = Some (File d)
  | _, _, _ => fs' !! pt_path = fs !! pt_path
  end.
Proof.
  intros Hnd.
  unfold relocate_primary, bind, os_path_exists, os_rename, ret, fs_exists.
  destruct (fs !! "yolov8n.pt") as [[d|]|] eqn:Hsrc; [|done|].
  - destruct (fs_rename fs "yolov8n.pt" pt_path) as [r' fs2] eqn:Hmv.
    intros H; inversion H; subst; clear H.
    pose proof (fs_rename_file_spec fs fs' "yolov8n.pt" pt_path d r
                  eq_refl ltac:(done) Hsrc Hmv) as Hspec.
    split; [|split].
    + destruct (fs !! "models") as [[?|]|], (fs !! pt_path) as [[?|]|];
        destruct Hspec as [_ ->]; try done;
        by rewrite lookup_insert_ne, lookup_delete_ne.
    + by repeat constructor.
    + destruct (fs !! "models") as [[?|]|], (fs !! pt_path) as [[?|]|] eqn:Hdst;
        destruct Hspec as [? ->]; try done;
        (split; [done|apply lookup_insert_eq]).
  - intros [= <- <- <-].
    split; [done|]. split; [constructor|].
    by destruct (fs !! "models") as [[?|]|], (fs !! pt_path) as [[?|]|].
Qed.

(** Steps 4-6 when the ONNX file is already in the models directory. *)
Lemma convert_secondary_skips {Model} (U : ultralytics Model) (fs : FS) :
  is_Some (fs !! onnx_path) ->
  convert_secondary U fs = (Ok tt, fs, []).
Proof.
  intros [n Hn].
  unfold convert_secondary, bind, os_path_exists, ret, fs_exists. by rewrite Hn.
Qed.

(** Every exception of [os.rename] is an [OSError]. *)
Lemma fs_rename_raises_Exception (fs fs' : FS) (src dst : string) (e : exn) :
  fs_rename fs src dst = (Raise e, fs') -> exn_is_Exception e = true.
Proof.
  unfold fs_rename. intros H.
  destruct (fs !! src) as [n|]; [|by inversion H].
  destruct (parent_check fs dst (rename_msg src dst)) as [[]|e0] eqn:Hp.
  - repeat match type of H with
      | context [match ?x with _ => _ end] => destruct x
      | context [if ?x then _ else _] => destruct x
      end; by inversion H.
  - inversion H; subst. unfold parent_check in Hp.
    repeat match type of Hp with
      | context [match ?x with _ => _ end] => destruct x
      | context [if ?x then _ else _] => destruct x
      end; by inversion Hp.
Qed.

Lemma relocate_primary_raises_Exception {Model} (fs fs' : FS) (e : exn)
    (evs : list (event Model)) :
  relocate_primary fs = (Raise e, fs', evs) -> exn_is_Exception e = true.
Proof.
  unfold relocate_primary, bind, os_path_exists, os_rename, ret.
  destruct (fs_exists fs "yolov8n.pt"); [|done].
  destruct (fs_rename fs "yolov8n.pt" pt_path) as [[[]|e'] fs2] eqn:Hmv; [done|].
  intros [= <- <- <-]. by eapply fs_rename_raises_Exception.
Qed.

(** The body of the [try] when the first load raises. *)
Lemma body_load_raises {Model} (U : ultralytics Model) (fs fs1 : FS) (e : exn) :
  YOLO U "yolov8n.pt" fs = (Raise e, fs1) ->
  download_body U fs =
    (Raise e, fs1,
     [EvPrint "Downloading YOLOv8n PyTorch model..."; EvYOLO "yolov8n.pt" (Raise e)]).
Proof.
  intros Hload. unfold download_body, bind, print, call_YOLO. by rewrite Hload.
Qed.

(** The body of the [try] after a first load that returned: step 3, the
    line that announces the conversion, steps 4 to 6, the three completion
    lines; the first exception ends it. *)
Lemma body_after_load {Model} (U : ultralytics Model) (fs fs1 : FS) (m1 : Model) :
  YOLO U "yolov8n.pt" fs = (Ok m1, fs1) ->
  download_body U fs =
    match relocate_primary (Model := Model) fs1 with
    | (Raise e, fs2, ev3) =>
        (Raise e, fs2,
         ([EvPrint "Downloading YOLOv8n PyTorch model..."; EvYOLO "yolov8n.pt" (Ok m1)]
            ++ ev3)%list)
    | (Ok _, fs2, ev3) =>
        match convert_secondary U fs2 with
        | (Raise e, fs3, evc) =>
            (Raise e, fs3,
             ([EvPrint "Downloading YOLOv8n PyTorch model..."; EvYOLO "yolov8n.pt" (Ok m1)]
                ++ ev3 ++ EvPrint "Converting to ONNX format..." :: evc)%list)
        | (Ok _, fs3, evc) =>
            (Ok tt, fs3,
             ([EvPrint "Downloading YOLOv8n PyTorch model..."; EvYOLO "yolov8n.pt" (Ok m1)]
                ++ ev3 ++ EvPrint "Converting to ONNX format..." :: evc
                ++ completion_lines)%list)
        end
    end.
Proof.
  intros Hload. unfold download_body.
  unfold bind at 1 2. unfold print at 1. unfold call_YOLO. rewrite Hload.
  unfold bind at 1.
  destruct (relocate_primary (Model := Model) fs1) as [[[[]|e] fs2] ev3]; [|done].
  unfold bind at 1 2. unfold print at 1.
  destruct (convert_secondary U fs2) as [[[[]|e] fs3] evc]; [|done].
  unfold bind, print. cbn [app]. reflexivity.
Qed.

(** With collaborators that raise instances of [Exception] only, so does
    the body of the [try]. *)
Lemma body_raises_Exception {Model} (U : ultralytics Model) (fs fs' : FS) (e : exn)
    (evs : list (event Model)) :
  raises_only_Exception U ->
  download_body U fs = (Raise e, fs', evs) ->
  exn_is_Exception e = true.
Proof.
  intros [Hl He] Hrun. unfold_script.
  repeat split_run;
    match goal with
    | H : YOLO U _ _ = (Raise ?e, _) |- exn_is_Exception ?e = true => by eapply Hl
    | H : export U _ _ _ _ = (Raise ?e, _) |- exn_is_Exception ?e = true => by eapply He
    | H : fs_rename _ _ _ = (Raise ?e, _) |- exn_is_Exception ?e = true =>
        by eapply fs_rename_raises_Exception
    end.
Qed.

(** Once the directory is there, with such collaborators, the acquirer
    returns normally. *)
Lemma acquirer_returns {Model} (U : ultralytics Model) (fs fs0 : FS) :
  fs_makedirs fs "models" true = (Ok tt, fs0) ->
  raises_only_Exception U ->
  exists (fs' : FS) (evs : list (event Model)),
    download_yolov8n_models U fs = (Ok tt, fs', evs).
Proof.
  intros Hmk HU. rewrite (acquirer_after_makedirs U fs fs0 Hmk), try_download_outcome.
  destruct (download_body U fs0) as [[[[]|e] fs1] ev1] eqn:Hb; [by eauto|].
  rewrite (body_raises_Exception U fs0 fs1 e ev1 HU Hb). by eauto.
Qed.

(** A run that starts with the models directory and the ONNX file in
    place, with a loader that leaves the ONNX file alone and leaves a
    regular file or nothing at ["yolov8n.pt"]. *)
Lemma populated_run {Model} (U : ultralytics Model) (fs fs1 : FS) (r1 : result Model) :
  fs !! "models" = Some Dir ->
  is_Some (fs !! onnx_path) ->
  YOLO U "yolov8n.pt" fs = (r1, fs1) ->
  fs1 !! onnx_path = fs !! onnx_path ->
  fs1 !! "yolov8n.pt" <> Some Dir ->
  exists (fs' : FS) (evs : list (event Model)),
    download_yolov8n_models U fs = (handled r1, fs', evs) /\
    Forall (fun ev => is_conversion_call ev = false) evs /\
    fs' !! onnx_path = fs !! onnx_path /\
    match r1 with
    | Raise _ => fs' = fs1
    | Ok _ => exists r2 ev2, relocate_primary (Model := Model) fs1 = (r2, fs', ev2)
    end.
Proof.
  intros Hdir Honnx Hload Hframe Hnd.
  assert (fs_makedirs fs "models" true = (Ok tt, fs)) as Hmk
    by (by rewrite fs_makedirs_models, Hdir).
  rewrite (acquirer_after_makedirs U fs fs Hmk), try_download_outcome.
  destruct r1 as [m1|e].
  - rewrite (body_after_load U fs fs1 m1 Hload).
    destruct (relocate_primary (Model := Model) fs1) as [[r2 fs2] ev2] eqn:Hrel.
    destruct (relocate_primary_effect fs1 fs2 r2 ev2 Hnd Hrel) as (Ho & Hev & _).
    destruct r2 as [[]|e2].
    + rewrite convert_secondary_skips by (by rewrite Ho, Hframe).
      eexists _, _. split; [reflexivity|]. split; [|split; [congruence|eauto]].
      cbn [app]. repeat (apply Forall_cons; split; [done|]).
      apply Forall_app; split; [done|]. by repeat constructor.
    + rewrite (relocate_primary_raises_Exception fs1 fs2 e2 ev2 Hrel).
      eexists _, _. split; [reflexivity|]. split; [|split; [congruence|eauto]].
      cbn [app]. repeat (apply Forall_cons; split; [done|]).
      apply Forall_app; split; [done|]. by repeat constructor.
  - rewrite (body_load_raises U fs fs1 e Hload). cbn [handled].
    destruct (exn_is_Exception e);
      (eexists _, _; split; [reflexivity|]; split; [|split; [congruence|done]]);
      by repeat constructor.
Qed.

Lemma nonempty_file_lookup (fs : FS) (p : string) (d : list Byte.byte) :
  fs !! p = Some (File d) -> d <> [] -> nonempty_file fs p.
Proof. unfold nonempty_file. intros -> Hd. by destruct d. Qed.

(** The sample loader and exporter are of that kind. *)
Lemma downloading_deposits_in_cwd :
  deposits_in_cwd downloading fresh_weights onnx_bytes.
Proof.
  split; [|split].
  - intros fs. exists "yolov8n.pt". reflexivity.
  - intros fs _. exists pt_path. reflexivity.
  - intros m fs. reflexivity.
Qed.

Lemma empty_working_directory : output_dir_empty ∅.
Proof. split; [by left|]. intros p _. apply lookup_empty. Qed.

(** Step 3, by what is at ["yolov8n.pt"] in the working directory: nothing
    there, nothing done; something there, one call of [os.rename], which
    moves a regular file when the models directory is in place and no
    directory is in the way. *)
Lemma relocate_primary_step {Model} (fs : FS) :
  match fs !! "yolov8n.pt" with
  | None => relocate_primary (Model := Model) fs = (Ok tt, fs, [])
  | Some n =>
      exists (r : result unit) (fs' : FS),
        relocate_primary (Model := Model) fs =
          (r, fs', [EvRename "yolov8n.pt" pt_path r]) /\
        fs_rename fs "yolov8n.pt" pt_path = (r, fs') /\
        match n with
        | File d =>
            fs !! "models" = Some Dir -> fs !! pt_path <> Some Dir ->
            r = Ok tt /\ fs' = <[pt_path := File d]> (delete "yolov8n.pt" fs)
        | Dir => True
        end
  end.
Proof.
  unfold relocate_primary, bind, os_path_exists, os_rename, ret, fs_exists.
  destruct (fs !! "yolov8n.pt") as [n|] eqn:Hsrc; [|reflexivity].
  destruct (fs_rename fs "yolov8n.pt" pt_path) as [r fs'] eqn:Hmv.
  exists r, fs'. split; [reflexivity|]. split; [reflexivity|].
  destruct n as [d|]; [|exact I].
  intros Hdir Hdst. rewrite (fs_rename_primary fs d Hsrc Hdir Hdst) in Hmv.
  by inversion Hmv.
Qed.

(** Steps 4 to 6 when ["models/yolov8n.onnx"] does not exist: a load from
    ["models/yolov8n.pt"], the export of the model that load returned, and
    at most the rename of the exported file. *)
Lemma convert_secondary_calls {Model} (U : ultralytics Model) (fs : FS) :
  fs !! onnx_path = None ->
  match YOLO U pt_path fs with
  | (Raise e, fs1) =>
      convert_secondary U fs = (Raise e, fs1, [EvYOLO pt_path (Raise e)])
  | (Ok m, fs1) =>
      match export U m "onnx" [640; 640]%Z fs1 with
      | (Raise e, fs2) =>
          convert_secondary U fs =
            (Raise e, fs2,
             [EvYOLO pt_path (Ok m); EvExport m "onnx" [640; 640]%Z (Raise e)])
      | (Ok _, fs2) =>
          exists (r : result unit) (fs3 : FS) (mv : list (event Model)),
            convert_secondary U fs =
              (r, fs3,
               EvYOLO pt_path (Ok m) :: EvExport m "onnx" [640; 640]%Z (Ok tt) :: mv) /\
            (mv = [] \/ mv = [EvRename "yolov8n.onnx" onnx_path r])
      end
  end.
Proof.
  intros Hno.
  unfold convert_secondary, bind, os_path_exists, call_YOLO, call_export, os_rename,
    ret, fs_exists.
  rewrite Hno. cbn [negb].
  destruct (YOLO U pt_path fs) as [[m|e] fs1]; [|reflexivity].
  destruct (export U m "onnx" [640; 640]%Z fs1) as [[[]|e] fs2]; [|reflexivity].
  destruct (fs2 !! "yolov8n.onnx") as [n|].
  - destruct (fs_rename fs2 "yolov8n.onnx" onnx_path) as [r fs3].
    exists r, fs3, [EvRename "yolov8n.onnx" onnx_path r]. split; [reflexivity|by right].
  - exists (Ok tt), fs2, []. split; [reflexivity|by left].
Qed.

(** ** The claims *)

(** C1, as the code has it.  Every exception that the loader or the
    converter raises during [download_yolov8n_models] and that is an
    instance of [Exception] is caught there: the function returns normally,
    the last three lines it prints are the error message with [str(e)] and
    the two lines of the upgrade hint, and the entry point goes on to run
    [verify_downloads] and print its report. *)
Theorem C1_Exception_caught {Model} (U : ultralytics Model)
    (fs fs' : FS) (r : result unit) (evs : list (event Model)) (e : exn) :
  download_yolov8n_models U fs = (r, fs', evs) ->
  Exists (raised_by_collaborator e) evs ->
  exn_is_Exception e = true ->
  r = Ok tt /\
  (exists pre, evs = (pre ++ handler_lines e)%list) /\
  main U fs = (Ok tt, fs', (evs ++ report_lines fs')%list).
Proof.
  intros Hrun Hex HE.
  destruct (fs_makedirs fs "models" true) as [[[]|e0] fs0] eqn:Hmk.
  - rewrite (acquirer_after_makedirs U fs fs0 Hmk), try_download_outcome in Hrun.
    destruct (download_body U fs0) as [[[[]|e1] fsb] evb] eqn:Hb.
    + inversion Hrun; subst; clear Hrun.
      apply Exists_cons in Hex as [Hex|Hex]; [done|].
      by pose proof (body_raise_is_result U _ _ _ _ e Hb Hex).
    + assert (Exists (raised_by_collaborator e) evb) as Hexb.
      { destruct (exn_is_Exception e1); inversion Hrun; subst; clear Hrun;
          apply Exists_cons in Hex as [Hex|Hex]; try done.
        apply Exists_app in Hex as [Hex|Hex]; [done|].
        unfold handler_lines in Hex.
        repeat (apply Exists_cons in Hex as [Hex|Hex]; [done|]).
        by apply Exists_nil in Hex. }
      pose proof (body_raise_is_result U _ _ _ _ e Hb Hexb) as Heq.
      inversion Heq; subst e1. rewrite HE in Hrun.
      inversion Hrun; subst; clear Hrun.
      assert (download_yolov8n_models U fs =
                (Ok tt, fs', EvMakedirs "models" true (Ok tt) :: evb ++ handler_lines e))
        as Hacq.
      { by rewrite (acquirer_after_makedirs U fs fs0 Hmk), try_download_outcome, Hb, HE. }
      split; [done|]. split; [|by apply main_after_acquirer].
      by exists (EvMakedirs "models" true (Ok tt) :: evb).
  - rewrite (acquirer_makedirs_raises U fs fs0 e0 Hmk) in Hrun.
    inversion Hrun; subst; clear Hrun.
    apply Exists_cons in Hex as [Hex|Hex]; [done|]. by apply Exists_nil in Hex.
Qed.

(** C1, run with a loader that has no network, from an empty working
    directory. *)
Lemma C1_offline_run :
  main offline ∅ =
    (Ok tt, {["models" := Dir]},
     [EvMakedirs "models" true (Ok tt);
      EvPrint "Downloading YOLOv8n PyTorch model...";
      EvYOLO "yolov8n.pt" (Raise connection_error);
      EvPrint "Error downloading models: Download failure for yolov8n.pt";
      EvPrint "Please make sure you have the latest ultralytics package installed:";
      EvPrint "pip install --upgrade ultralytics";
      EvPrint "PyTorch model: Missing at models/yolov8n.pt";
      EvPrint "ONNX model: Missing at models/yolov8n.onnx";
      EvPrint "Some model files failed to download. Please check errors above."]).
Proof.
  refine (proj2 (proj2 (C1_Exception_caught offline ∅ {["models" := Dir]}
    (Ok tt)
    [EvMakedirs "models" true (Ok tt);
     EvPrint "Downloading YOLOv8n PyTorch model...";
     EvYOLO "yolov8n.pt" (Raise connection_error);
     EvPrint "Error downloading models: Download failure for yolov8n.pt";
     EvPrint "Please make sure you have the latest ultralytics package installed:";
     EvPrint "pip install --upgrade ultralytics"]
    connection_error _ _ _))).
  - vm_compute. reflexivity.
  - do 2 apply Exists_cons_tl. apply Exists_cons_hd. reflexivity.
  - reflexivity.
Defined.

(** C1 as the specification states it fails: a [KeyboardInterrupt] raised
    during the first load is no instance of [Exception]; the handler does
    not catch it, nothing more is printed, the acquirer and the entry point
    end with it, and the verifier does not run. *)
Lemma C1_interrupt_not_caught :
  download_yolov8n_models interrupted ∅ =
    (Raise keyboard_interrupt, {["models" := Dir]},
     [EvMakedirs "models" true (Ok tt);
      EvPrint "Downloading YOLOv8n PyTorch model...";
      EvYOLO "yolov8n.pt" (Raise keyboard_interrupt)]) /\
  main interrupted ∅ =
    (Raise keyboard_interrupt, {["models" := Dir]},
     [EvMakedirs "models" true (Ok tt);
      EvPrint "Downloading YOLOv8n PyTorch model...";
      EvYOLO "yolov8n.pt" (Raise keyboard_interrupt)]).
Proof. split; vm_compute; reflexivity. Qed.

(** C2, as the code has it.  [os.makedirs] is called before the [try] is
    entered.  When it raises, nothing is printed, the exception leaves
    [download_yolov8n_models], and the entry point ends with it before
    [verify_downloads] is reached: the interpreter exits with status 1. *)
Theorem C2_makedirs_failure_propagates {Model} (U : ultralytics Model)
    (fs fs0 : FS) (e : exn) :
  fs_makedirs fs "models" true = (Raise e, fs0) ->
  download_yolov8n_models U fs = (Raise e, fs0, [EvMakedirs "models" true (Raise e)]) /\
  main U fs = (Raise e, fs0, [EvMakedirs "models" true (Raise e)]) /\
  exit_status (main U fs).1.1 = 1%Z.
Proof.
  intros Hmk.
  pose proof (acquirer_makedirs_raises U fs fs0 e Hmk) as Hacq.
  pose proof (main_acquirer_raises U fs fs0 _ e Hacq) as Hmain.
  rewrite Hmain. by repeat split.
Qed.

Lemma C2_models_blocked_run :
  download_yolov8n_models downloading models_blocked =
    (Raise models_is_a_file, models_blocked,
     [EvMakedirs "models" true (Raise models_is_a_file)]) /\
  main downloading models_blocked =
    (Raise models_is_a_file, models_blocked,
     [EvMakedirs "models" true (Raise models_is_a_file)]) /\
  exit_status (main downloading models_blocked).1.1 = 1%Z.
Proof.
  apply (C2_makedirs_failure_propagates downloading models_blocked models_blocked
           models_is_a_file).
  vm_compute. reflexivity.
Defined.

(** C2 as the specification states it fails: with [models] a regular file,
    directory creation raises [FileExistsError]; the acquirer does not
    return normally and prints no diagnostic. *)
Lemma C2_makedirs_failure_not_caught :
  fs_makedirs models_blocked "models" true = (Raise models_is_a_file, models_blocked) /\
  ~ (exists (fs' : FS) (evs : list (event string)),
       download_yolov8n_models downloading models_blocked = (Ok tt, fs', evs)) /\
  ~ (exists line, In (EvPrint line) (download_yolov8n_models downloading models_blocked).2).
Proof.
  split; [vm_compute; reflexivity|]. split.
  - intros (fs' & evs & H). vm_compute in H. discriminate H.
  - intros (line & H). vm_compute in H. destruct H as [H|[]]. discriminate H.
Qed.

(** C3.  [verify_downloads] leaves the filesystem as it found it, prints
    one line per required file, "Found" when the path exists and "Missing"
    when it does not, and returns true exactly when both paths exist.
    Nothing but the existence of the two paths enters the result. *)
Theorem C3_verify_downloads {Model} (fs : FS) :
  verify_downloads (Model := Model) fs =
    (Ok (bool_decide (is_Some (fs !! pt_path) /\ is_Some (fs !! onnx_path))),
     fs,
     [EvPrint (if bool_decide (is_Some (fs !! pt_path))
               then "PyTorch model: Found at models/yolov8n.pt"
               else "PyTorch model: Missing at models/yolov8n.pt");
      EvPrint (if bool_decide (is_Some (fs !! onnx_path))
               then "ONNX model: Found at models/yolov8n.onnx"
               else "ONNX model: Missing at models/yolov8n.onnx")]).
Proof.
  rewrite verify_downloads_run. unfold fs_exists.
  destruct (fs !! pt_path) as [n1|], (fs !! onnx_path) as [n2|]; cbn [andb].
  - rewrite bool_decide_eq_true_2 by (split; by eexists).
    rewrite !bool_decide_eq_true_2 by (by eexists). reflexivity.
  - rewrite (bool_decide_eq_false_2 (_ /\ _)) by (intros [_ []]; done).
    rewrite bool_decide_eq_true_2 by (by eexists).
    rewrite bool_decide_eq_false_2 by (intros []; done). reflexivity.
  - rewrite (bool_decide_eq_false_2 (_ /\ _)) by (intros [[] _]; done).
    rewrite bool_decide_eq_false_2 by (intros []; done).
    rewrite bool_decide_eq_true_2 by (by eexists). reflexivity.
  - rewrite (bool_decide_eq_false_2 (_ /\ _)) by (intros [[] _]; done).
    rewrite !bool_decide_eq_false_2 by (intros []; done). reflexivity.
Qed.

(** The verifier on a models directory that holds the weights only. *)
Example verify_primary_only :
  verify_downloads (Model := string)
    {["models" := Dir; "models/yolov8n.pt" := File fresh_weights]} =
    (Ok false,
     {["models" := Dir; "models/yolov8n.pt" := File fresh_weights]},
     [EvPrint "PyTorch model: Found at models/yolov8n.pt";
      EvPrint "ONNX model: Missing at models/yolov8n.onnx"]).
Proof. vm_compute. reflexivity. Qed.

(** C4, as the code has it.  When ["models/yolov8n.onnx"] exists at step 4
    the conversion does nothing.  In a run that starts with the models
    directory and the ONNX file in place, with a loader that leaves the two
    files in the models directory alone, no model is loaded from the models
    directory and nothing is exported; the ONNX file is as before; the
    weights file is as before when the loader leaves no ["yolov8n.pt"] in
    the working directory, or leaves one with the content already in
    place. *)
Theorem C4_conversion_skipped {Model} (U : ultralytics Model) (fs fs1 : FS)
    (r1 : result Model) :
  fs !! "models" = Some Dir ->
  is_Some (fs !! onnx_path) ->
  YOLO U "yolov8n.pt" fs = (r1, fs1) ->
  fs1 !! onnx_path = fs !! onnx_path ->
  fs1 !! pt_path = fs !! pt_path ->
  fs1 !! "yolov8n.pt" <> Some Dir ->
  convert_secondary U fs = (Ok tt, fs, []) /\
  exists (fs' : FS) (evs : list (event Model)),
    download_yolov8n_models U fs = (handled r1, fs', evs) /\
    Forall (fun ev => is_conversion_call ev = false) evs /\
    fs' !! onnx_path = fs !! onnx_path /\
    (fs1 !! "yolov8n.pt" = None \/ fs1 !! "yolov8n.pt" = fs !! pt_path ->
     fs' !! pt_path = fs !! pt_path).
Proof.
  intros Hdir Honnx Hload Hf1 Hf2 Hnd.
  split; [by apply convert_secondary_skips|].
  destruct (populated_run U fs fs1 r1 Hdir Honnx Hload Hf1 Hnd)
    as (fs' & evs & Hrun & Hev & Ho & Hfs).
  exists fs', evs. repeat (split; [done|]).
  intros Hsame. destruct r1 as [m1|e]; [|by subst].
  destruct Hfs as (r2 & ev2 & Hrel).
  destruct (relocate_primary_effect fs1 fs' r2 ev2 Hnd Hrel) as (_ & _ & Hpt).
  rewrite Hf2 in Hpt.
  destruct (fs1 !! "yolov8n.pt") as [[d|]|] eqn:Hsrc; [|done|by rewrite Hpt].
  destruct Hsame as [?|Hsame]; [done|].
  destruct (fs1 !! "models") as [[?|]|]; try done.
  rewrite <- Hsame in *. by destruct Hpt as [_ ->].
Qed.

(** C4 on a second run in which the loader downloads the same weights
    again. *)
Lemma C4_same_weights_again :
  convert_secondary downloading (populated fresh_weights) =
    (Ok tt, populated fresh_weights, []) /\
  exists (fs' : FS) (evs : list (event string)),
    download_yolov8n_models downloading (populated fresh_weights) = (Ok tt, fs', evs) /\
    Forall (fun ev => is_conversion_call ev = false) evs /\
    fs' !! onnx_path = populated fresh_weights !! onnx_path /\
    ((<["yolov8n.pt" := File fresh_weights]> (populated fresh_weights)) !! "yolov8n.pt" = None \/
     (<["yolov8n.pt" := File fresh_weights]> (populated fresh_weights)) !! "yolov8n.pt" =
       populated fresh_weights !! pt_path ->
     fs' !! pt_path = populated fresh_weights !! pt_path).
Proof.
  refine (C4_conversion_skipped downloading (populated fresh_weights)
           (<["yolov8n.pt" := File fresh_weights]> (populated fresh_weights))
           (Ok "yolov8n.pt") _ _ _ _ _ _).
  - vm_compute. reflexivity.
  - vm_compute. eexists. reflexivity.
  - vm_compute. reflexivity.
  - vm_compute. reflexivity.
  - vm_compute. reflexivity.
  - vm_compute. discriminate.
Defined.

(** C4 as the specification states it fails: a second run against a
    populated models directory, with a loader that downloads weights other
    than the ones in place, exports nothing but replaces the content of
    ["models/yolov8n.pt"]. *)
Lemma C4_second_run_replaces_weights :
  populated old_weights !! pt_path = Some (File old_weights) /\
  populated old_weights !! onnx_path = Some (File onnx_bytes) /\
  download_yolov8n_models downloading (populated old_weights) =
    (Ok tt, populated fresh_weights,
     [EvMakedirs "models" true (Ok tt);
      EvPrint "Downloading YOLOv8n PyTorch model...";
      EvYOLO "yolov8n.pt" (Ok "yolov8n.pt");
      EvRename "yolov8n.pt" "models/yolov8n.pt" (Ok tt);
      EvPrint "Converting to ONNX format...";
      EvPrint "Download complete!";
      EvPrint "PyTorch model saved to: models/yolov8n.pt";
      EvPrint "ONNX model saved to: models/yolov8n.onnx"]) /\
  populated fresh_weights !! pt_path = Some (File fresh_weights) /\
  fresh_weights <> old_weights.
Proof. repeat split; try (vm_compute; reflexivity). discriminate. Qed.




(** C6.  In a run of the acquirer in which the directory is there and the
    first load has returned, what happens next is decided by
    ["yolov8n.pt"] in the working directory as the loader left it.  When
    nothing is there, no rename is made: the next event is the line that
    announces the conversion, and steps 4 to 6 start on the filesystem of
    the loader, unchanged.  When something is there, the next event is one
    call of [os.rename] to ["models/yolov8n.pt"]; for a regular file, with
    the models directory in place and no directory in the way, the call
    succeeds, the file is gone from the working directory with its content
    at ["models/yolov8n.pt"], and steps 4 to 6 start on that filesystem. *)
Theorem C6_acquirer_relocates {Model} (U : ultralytics Model) (fs fs0 fs1 : FS)
    (m1 : Model) :
  fs_makedirs fs "models" true = (Ok tt, fs0) ->
  YOLO U "yolov8n.pt" fs0 = (Ok m1, fs1) ->
  let run := download_yolov8n_models U fs in
  let loaded :=
    [EvMakedirs "models" true (Ok tt);
     EvPrint "Downloading YOLOv8n PyTorch model...";
     EvYOLO "yolov8n.pt" (Ok m1)] in
  match fs1 !! "yolov8n.pt" with
  | None =>
      run.1.2 = (convert_secondary U fs1).1.2 /\
      exists rest,
        run.2 = (loaded ++ EvPrint "Converting to ONNX format..."
                   :: (convert_secondary U fs1).2 ++ rest)%list
  | Some n =>
      exists (r2 : result unit) (fs2 : FS) (rest : list (event Model)),
        fs_rename fs1 "yolov8n.pt" pt_path = (r2, fs2) /\
        run.2 = (loaded ++ EvRename "yolov8n.pt" pt_path r2 :: rest)%list /\
        match n with
        | File d =>
            fs1 !! "models" = Some Dir -> fs1 !! pt_path <> Some Dir ->
            r2 = Ok tt /\
            fs2 = <[pt_path := File d]> (delete "yolov8n.pt" fs1) /\
            run.1.2 = (convert_secondary U fs2).1.2
        | Dir => True
        end
  end.
Proof.
  intros Hmk Hload. cbv zeta.
  rewrite (acquirer_after_makedirs U fs fs0 Hmk), try_download_outcome,
    (body_after_load U fs0 fs1 m1 Hload).
  pose proof (relocate_primary_step (Model := Model) fs1) as Hstep.
  destruct (fs1 !! "yolov8n.pt") as [n|] eqn:Hsrc.
  - destruct Hstep as (r2 & fs2 & Hrel & Hmv & Hfile).
    rewrite Hrel. exists r2, fs2.
    destruct r2 as [[]|e2].
    + destruct (convert_secondary U fs2) as [[[[]|e] fs3] evc] eqn:Hconv;
        [|destruct (exn_is_Exception e)];
        (eexists; split; [done|]; split; [cbn [app snd]; reflexivity|]);
        (destruct n as [d|]; [|done]; intros Hdir Hdst;
         by destruct (Hfile Hdir Hdst) as [_ Hfs2]).
    + destruct (exn_is_Exception e2);
        (eexists; split; [done|]; split; [cbn [app snd]; reflexivity|]);
        (destruct n as [d|]; [|done]; intros Hdir Hdst;
         by destruct (Hfile Hdir Hdst) as [? _]).
  - rewrite Hstep.
    destruct (convert_secondary U fs1) as [[[[]|e] fs3] evc] eqn:Hconv;
      [|destruct (exn_is_Exception e)];
      (split; [done|]);
      first [ eexists; cbn [app snd]; reflexivity
            | exists []; cbn [app snd]; by rewrite app_nil_r ].
Qed.

(** C6 for a fresh download into an empty working directory. *)
Lemma C6_download_is_moved :
  exists (r2 : result unit) (fs2 : FS) (rest : list (event string)),
    fs_rename {["models" := Dir; "yolov8n.pt" := File fresh_weights]}
      "yolov8n.pt" pt_path = (r2, fs2) /\
    (download_yolov8n_models downloading ∅).2 =
      ([EvMakedirs "models" true (Ok tt);
        EvPrint "Downloading YOLOv8n PyTorch model...";
        EvYOLO "yolov8n.pt" (Ok "yolov8n.pt")]
         ++ EvRename "yolov8n.pt" pt_path r2 :: rest)%list /\
    (({["models" := Dir; "yolov8n.pt" := File fresh_weights]} : FS) !! "models" = Some Dir ->
     ({["models" := Dir; "yolov8n.pt" := File fresh_weights]} : FS) !! pt_path <> Some Dir ->
     r2 = Ok tt /\
     fs2 = <[pt_path := File fresh_weights]>
             (delete "yolov8n.pt" {["models" := Dir; "yolov8n.pt" := File fresh_weights]}) /\
     (download_yolov8n_models downloading ∅).1.2 = (convert_secondary downloading fs2).1.2).
Proof.
  refine (C6_acquirer_relocates downloading ∅ {["models" := Dir]}
            {["models" := Dir; "yolov8n.pt" := File fresh_weights]} "yolov8n.pt" _ _).
  - vm_compute. reflexivity.
  - vm_compute. reflexivity.
Defined.

(** Step 3 after a download, and step 3 when the loader used its cache. *)
Example relocate_after_download :
  relocate_primary (Model := string)
    {["models" := Dir; "yolov8n.pt" := File fresh_weights]} =
    (Ok tt, {["models" := Dir; "models/yolov8n.pt" := File fresh_weights]},
     [EvRename "yolov8n.pt" "models/yolov8n.pt" (Ok tt)]).
Proof. vm_compute. reflexivity. Qed.

Example relocate_nothing_downloaded :
  relocate_primary (Model := string) {["models" := Dir]} =
    (Ok tt, {["models" := Dir]}, []).
Proof. vm_compute. reflexivity. Qed.

(** Step 3 makes no call but, at most, its rename. *)
Lemma relocate_primary_events {Model} (fs fs' : FS) (r : result unit)
    (evs : list (event Model)) :
  relocate_primary fs = (r, fs', evs) ->
  evs = [] \/ evs = [EvRename "yolov8n.pt" pt_path r].
Proof.
  unfold relocate_primary, bind, os_path_exists, os_rename, ret.
  destruct (fs_exists fs "yolov8n.pt").
  - destruct (fs_rename fs "yolov8n.pt" pt_path) as [r' fs2].
    intros [= <- <- <-]. by right.
  - intros [= <- <- <-]. by left.
Qed.

(** C7.  In a run of the acquirer that reaches step 4 with no
    ["models/yolov8n.onnx"], the event after the line that announces the
    conversion is [YOLO("models/yolov8n.pt")].  When that load returns a
    model, the next event is [export] of that model, the one loaded from
    the models directory and not the one of the first load, with
    [format="onnx"] and [imgsz=[640, 640]]; it is the only export of the
    run, and no model is loaded after it.  When that load raises, the run
    makes no export. *)
Theorem C7_acquirer_conversion {Model} (U : ultralytics Model) (fs fs0 fs1 fs2 : FS)
    (m1 : Model) (ev3 : list (event Model)) :
  fs_makedirs fs "models" true = (Ok tt, fs0) ->
  YOLO U "yolov8n.pt" fs0 = (Ok m1, fs1) ->
  relocate_primary fs1 = (Ok tt, fs2, ev3) ->
  fs2 !! onnx_path = None ->
  let run := download_yolov8n_models U fs in
  let before :=
    ([EvMakedirs "models" true (Ok tt);
      EvPrint "Downloading YOLOv8n PyTorch model...";
      EvYOLO "yolov8n.pt" (Ok m1)]
       ++ ev3 ++ [EvPrint "Converting to ONNX format..."])%list in
  match YOLO U pt_path fs2 with
  | (Raise e, fs3) =>
      (exists rest, run.2 = (before ++ EvYOLO pt_path (Raise e) :: rest)%list) /\
      count_events is_export run.2 = 0
  | (Ok m, fs3) =>
      (exists rest,
         run.2 = (before ++ EvYOLO pt_path (Ok m)
                    :: EvExport m "onnx" [640; 640]%Z
                         (export U m "onnx" [640; 640]%Z fs3).1 :: rest)%list /\
         count_events is_load rest = 0) /\
      count_events is_export run.2 = 1
  end.
Proof.
  intros Hmk Hload Hrel Hno. cbv zeta.
  rewrite (acquirer_after_makedirs U fs fs0 Hmk), try_download_outcome,
    (body_after_load U fs0 fs1 m1 Hload), Hrel.
  pose proof (convert_secondary_calls U fs2 Hno) as Hconv.
  destruct (relocate_primary_events fs1 fs2 (Ok tt) ev3 Hrel) as [-> | ->];
    (destruct (YOLO U pt_path fs2) as [[m|e] fs3];
     [ destruct (export U m "onnx" [640; 640]%Z fs3) as [[[]|e] fs4];
       [ destruct Hconv as (r & fs5 & mv & -> & [-> | ->]); destruct r as [[]|e]
       | rewrite Hconv ]
     | rewrite Hconv ]);
    repeat match goal with
      | |- context [exn_is_Exception ?e] => destruct (exn_is_Exception e)
      end;
    cbn [app fst snd];
    (split; [|vm_compute; reflexivity]);
    try (eexists; split; [reflexivity | vm_compute; reflexivity]);
    try (eexists; reflexivity).
Qed.

(** C7 for a fresh download: the exported model is the one loaded from
    the models directory. *)
Lemma C7_exports_relocated_model :
  (exists rest,
     (download_yolov8n_models downloading ∅).2 =
       (([EvMakedirs "models" true (Ok tt);
          EvPrint "Downloading YOLOv8n PyTorch model...";
          EvYOLO "yolov8n.pt" (Ok "yolov8n.pt")]
           ++ [EvRename "yolov8n.pt" pt_path (Ok tt)]
           ++ [EvPrint "Converting to ONNX format..."])
          ++ EvYOLO pt_path (Ok "models/yolov8n.pt")
          :: EvExport "models/yolov8n.pt" "onnx" [640; 640]%Z (Ok tt) :: rest)%list /\
     count_events is_load rest = 0) /\
  count_events is_export (download_yolov8n_models downloading ∅).2 = 1.
Proof.
  refine (C7_acquirer_conversion downloading ∅ {["models" := Dir]}
            {["models" := Dir; "yolov8n.pt" := File fresh_weights]}
            {["models" := Dir; "models/yolov8n.pt" := File fresh_weights]}
            "yolov8n.pt" [EvRename "yolov8n.pt" pt_path (Ok tt)] _ _ _ _).
  - vm_compute. reflexivity.
  - vm_compute. reflexivity.
  - vm_compute. reflexivity.
  - vm_compute. reflexivity.
Defined.

(** C8, as the code has it.  When the two packages of lines 2-3 can be
    imported, directory creation does not raise, and the loader and the
    converter raise nothing but instances of [Exception], the script runs
    the acquirer, which returns normally, then the verifier on the
    filesystem the acquirer left, then prints the one summary line that the
    verifier's result selects, and ends with status 0. *)
Theorem C8_entry_point {Model} (U : ultralytics Model) (installed : string -> bool)
    (fs fs0 : FS) :
  installed "ultralytics" = true ->
  installed "requests" = true ->
  fs_makedirs fs "models" true = (Ok tt, fs0) ->
  raises_only_Exception U ->
  exists (fs' : FS) (acq : list (event Model)),
    download_yolov8n_models U fs = (Ok tt, fs', acq) /\
    main U fs =
      (Ok tt, fs',
       (acq ++
        [EvPrint (status_line "PyTorch" pt_path (fs_exists fs' pt_path));
         EvPrint (status_line "ONNX" onnx_path (fs_exists fs' onnx_path));
         EvPrint (match verify_downloads (Model := Model) fs' with
                  | (Ok true, _, _) => msg_success
                  | _ => msg_failure
                  end)])%list) /\
    script U installed fs = main U fs /\
    exit_status (script U installed fs).1.1 = 0%Z.
Proof.
  intros Hu Hr Hmk HU.
  destruct (acquirer_returns U fs fs0 Hmk HU) as (fs' & acq & Hacq).
  exists fs', acq. split; [done|].
  pose proof (main_after_acquirer U fs fs' _ Hacq) as Hmain.
  assert (script U installed fs = main U fs) as Hscript.
  { unfold script, bind at 1 2, import_module. rewrite Hu, Hr.
    by destruct (main U fs) as [[r f] ev]. }
  rewrite Hscript, Hmain. split; [|done].
  rewrite verify_downloads_run. unfold report_lines.
  by destruct (fs_exists fs' pt_path), (fs_exists fs' onnx_path).
Qed.

Lemma offline_raises_only_Exception : raises_only_Exception offline.
Proof.
  split.
  - intros path fs e fs' H. by inversion H.
  - intros m format imgsz fs e fs' H. by inversion H.
Qed.

(** C8 for a run without network. *)
Lemma C8_offline_run :
  exists (fs' : FS) (acq : list (event string)),
    download_yolov8n_models offline ∅ = (Ok tt, fs', acq) /\
    main offline ∅ =
      (Ok tt, fs',
       (acq ++
        [EvPrint (status_line "PyTorch" pt_path (fs_exists fs' pt_path));
         EvPrint (status_line "ONNX" onnx_path (fs_exists fs' onnx_path));
         EvPrint (match verify_downloads (Model := string) fs' with
                  | (Ok true, _, _) => msg_success
                  | _ => msg_failure
                  end)])%list) /\
    script offline all_installed ∅ = main offline ∅ /\
    exit_status (script offline all_installed ∅).1.1 = 0%Z.
Proof.
  apply (C8_entry_point offline all_installed ∅ {["models" := Dir]}).
  - reflexivity.
  - reflexivity.
  - vm_compute. reflexivity.
  - apply offline_raises_only_Exception.
Defined.

(** C8 as the specification states it fails: with [models] a regular file
    the entry point ends with an uncaught [FileExistsError], status 1, and
    neither the verifier's lines nor a summary line are printed. *)
Lemma C8_exit_status_one :
  main downloading models_blocked =
    (Raise models_is_a_file, models_blocked,
     [EvMakedirs "models" true (Raise models_is_a_file)]) /\
  exit_status (main downloading models_blocked).1.1 = 1%Z.
Proof. split; vm_compute; reflexivity. Qed.

(** C9.  From an empty models directory, with a loader and a converter
    that succeed and put their outputs into the working directory, the
    acquirer returns normally and both ["models/yolov8n.pt"] and
    ["models/yolov8n.onnx"] exist as non-empty files: the downloaded
    weights and the exported model. *)
Theorem C9_fresh_run {Model} (U : ultralytics Model) (w o : list Byte.byte) (fs : FS) :
  deposits_in_cwd U w o ->
  output_dir_empty fs ->
  w <> [] ->
  o <> [] ->
  exists (fs' : FS) (evs : list (event Model)),
    download_yolov8n_models U fs = (Ok tt, fs', evs) /\
    fs' !! pt_path = Some (File w) /\
    fs' !! onnx_path = Some (File o) /\
    nonempty_file fs' pt_path /\
    nonempty_file fs' onnx_path.
Proof.
  intros (Hload & Hload2 & Hexp) [Hmodels Hunder] Hw Ho.
  assert (fs !! pt_path = None) as Hpt0 by (by apply Hunder).
  assert (fs !! onnx_path = None) as Honnx0 by (by apply Hunder).
  assert (exists fs0, fs_makedirs fs "models" true = (Ok tt, fs0)) as [fs0 Hmk].
  { rewrite fs_makedirs_models. destruct Hmodels as [-> | ->]; eauto. }
  destruct (fs_makedirs_models_ok fs fs0 Hmk) as [Hdir Hsame].
  destruct (Hload fs0) as [m1 Hl1].
  set (fs1 := <["yolov8n.pt" := File w]> fs0) in *.
  set (fs2 := <[pt_path := File w]> (delete "yolov8n.pt" fs1)).
  assert (fs_rename fs1 "yolov8n.pt" pt_path = (Ok tt, fs2)) as Hmv1.
  { apply fs_rename_primary; subst fs1.
    - apply lookup_insert_eq.
    - by rewrite lookup_insert_ne.
    - rewrite lookup_insert_ne by done. rewrite Hsame by done. by rewrite Hpt0. }
  assert (fs2 !! pt_path = Some (File w)) as Hpt2 by apply lookup_insert_eq.
  assert (fs2 !! onnx_path = None) as Honnx2.
  { subst fs2 fs1. rewrite lookup_insert_ne, lookup_delete_ne, lookup_insert_ne by done.
    by rewrite Hsame. }
  assert (fs2 !! "models" = Some Dir) as Hdir2.
  { subst fs2 fs1. by rewrite lookup_insert_ne, lookup_delete_ne, lookup_insert_ne. }
  destruct (Hload2 fs2) as [m2 Hl2]; [by eexists|].
  set (fs3 := <["yolov8n.onnx" := File o]> fs2).
  set (fs4 := <[onnx_path := File o]> (delete "yolov8n.onnx" fs3)).
  assert (fs_rename fs3 "yolov8n.onnx" onnx_path = (Ok tt, fs4)) as Hmv2.
  { apply fs_rename_secondary; subst fs3.
    - apply lookup_insert_eq.
    - by rewrite lookup_insert_ne.
    - rewrite lookup_insert_ne by done. by rewrite Honnx2. }
  assert (fs4 !! pt_path = Some (File w)) as Hpt4.
  { subst fs4 fs3. by rewrite lookup_insert_ne, lookup_delete_ne, lookup_insert_ne. }
  assert (fs4 !! onnx_path = Some (File o)) as Honnx4 by apply lookup_insert_eq.
  exists fs4. eexists. split; [|repeat split; eauto using nonempty_file_lookup].
  unfold download_yolov8n_models, try_except, download_body, relocate_primary,
    convert_secondary, bind, print, os_makedirs, call_YOLO, os_path_exists, os_rename,
    call_export, ret, fs_exists.
  rewrite Hmk, Hl1. fold fs1.
  replace (fs1 !! "yolov8n.pt") with (Some (File w)) by (symmetry; apply lookup_insert_eq).
  rewrite Hmv1, Honnx2. cbn [negb]. rewrite Hl2, Hexp. fold fs3.
  replace (fs3 !! "yolov8n.onnx") with (Some (File o)) by (symmetry; apply lookup_insert_eq).
  rewrite Hmv2. reflexivity.
Qed.

(** C9 for the sample loader, from an empty working directory. *)
Lemma C9_fresh_run_downloading :
  exists (fs' : FS) (evs : list (event string)),
    download_yolov8n_models downloading ∅ = (Ok tt, fs', evs) /\
    fs' !! pt_path = Some (File fresh_weights) /\
    fs' !! onnx_path = Some (File onnx_bytes) /\
    nonempty_file fs' pt_path /\
    nonempty_file fs' onnx_path.
Proof.
  apply (C9_fresh_run downloading fresh_weights onnx_bytes ∅).
  - apply downloading_deposits_in_cwd.
  - apply empty_working_directory.
  - discriminate.
  - discriminate.
Defined.

(** C10.  Nothing is rolled back when the conversion fails.  When the
    weights have been moved to ["models/yolov8n.pt"] and the conversion
    then raises an exception that the handler catches, an instance of
    [Exception], leaving the weights in place and no ONNX file, the
    acquirer returns normally on the filesystem as it stood at the raise;
    the verifier reports the weights as found and the ONNX file as missing
    and returns false, and the entry point prints the failure summary. *)
Theorem C10_partial_state {Model} (U : ultralytics Model) (fs fs0 fs1 fs3 : FS)
    (m1 : Model) (d : list Byte.byte) (e : exn) (ev2 : list (event Model)) :
  fs_makedirs fs "models" true = (Ok tt, fs0) ->
  YOLO U "yolov8n.pt" fs0 = (Ok m1, fs1) ->
  fs1 !! "yolov8n.pt" = Some (File d) ->
  fs1 !! "models" = Some Dir ->
  fs1 !! pt_path <> Some Dir ->
  convert_secondary U (<[pt_path := File d]> (delete "yolov8n.pt" fs1)) = (Raise e, fs3, ev2) ->
  exn_is_Exception e = true ->
  fs3 !! pt_path = Some (File d) ->
  fs3 !! onnx_path = None ->
  exists evs : list (event Model),
    download_yolov8n_models U fs = (Ok tt, fs3, (evs ++ handler_lines e)%list) /\
    In (EvRename "yolov8n.pt" pt_path (Ok tt)) evs /\
    verify_downloads (Model := Model) fs3 =
      (Ok false, fs3,
       [EvPrint "PyTorch model: Found at models/yolov8n.pt";
        EvPrint "ONNX model: Missing at models/yolov8n.onnx"]) /\
    main U fs =
      (Ok tt, fs3,
       (evs ++ handler_lines e ++
        [EvPrint "PyTorch model: Found at models/yolov8n.pt";
         EvPrint "ONNX model: Missing at models/yolov8n.onnx";
         EvPrint msg_failure])%list).
Proof.
  intros Hmk Hload Hsrc Hdir Hdst Hconv HE Hpt Honnx.
  pose proof (fs_rename_primary fs1 d Hsrc Hdir Hdst) as Hmv.
  assert (verify_downloads (Model := Model) fs3 =
            (Ok false, fs3,
             [EvPrint "PyTorch model: Found at models/yolov8n.pt";
              EvPrint "ONNX model: Missing at models/yolov8n.onnx"])) as Hver.
  { rewrite verify_downloads_run. unfold fs_exists. by rewrite Hpt, Honnx. }
  set (evs := ([EvMakedirs "models" true (Ok tt);
                EvPrint "Downloading YOLOv8n PyTorch model...";
                EvYOLO "yolov8n.pt" (Ok m1);
                EvRename "yolov8n.pt" pt_path (Ok tt);
                EvPrint "Converting to ONNX format..."] ++ ev2)%list).
  assert (download_yolov8n_models U fs = (Ok tt, fs3, (evs ++ handler_lines e)%list))
    as Hrun.
  { rewrite (acquirer_after_makedirs U fs fs0 Hmk), try_download_outcome,
      (body_after_load U fs0 fs1 m1 Hload).
    pose proof (relocate_primary_step (Model := Model) fs1) as Hstep.
    rewrite Hsrc in Hstep. destruct Hstep as (r2 & fs2 & -> & _ & Hfile).
    destruct (Hfile Hdir Hdst) as [-> ->].
    rewrite Hconv, HE. subst evs. cbn [app]. reflexivity. }
  exists evs. split; [done|]. split; [|split; [done|]].
  - subst evs. cbn. tauto.
  - rewrite (main_after_acquirer U fs fs3 _ Hrun).
    unfold report_lines, fs_exists. rewrite Hpt, Honnx. cbn [andb].
    by rewrite <- (app_assoc evs).
Qed.

(** C10 with a converter that fails: the weights are downloaded and
    moved, the export raises. *)
Lemma C10_export_fails_run :
  exists evs : list (event string),
    download_yolov8n_models no_onnx ∅ =
      (Ok tt, {["models" := Dir; "models/yolov8n.pt" := File fresh_weights]},
       (evs ++ handler_lines export_error)%list) /\
    In (EvRename "yolov8n.pt" pt_path (Ok tt)) evs /\
    verify_downloads (Model := string)
      {["models" := Dir; "models/yolov8n.pt" := File fresh_weights]} =
      (Ok false, {["models" := Dir; "models/yolov8n.pt" := File fresh_weights]},
       [EvPrint "PyTorch model: Found at models/yolov8n.pt";
        EvPrint "ONNX model: Missing at models/yolov8n.onnx"]) /\
    main no_onnx ∅ =
      (Ok tt, {["models" := Dir; "models/yolov8n.pt" := File fresh_weights]},
       (evs ++ handler_lines export_error ++
        [EvPrint "PyTorch model: Found at models/yolov8n.pt";
         EvPrint "ONNX model: Missing at models/yolov8n.onnx";
         EvPrint msg_failure])%list).
Proof.
  apply (C10_partial_state no_onnx ∅ {["models" := Dir]}
           {["models" := Dir; "yolov8n.pt" := File fresh_weights]}
           {["models" := Dir; "models/yolov8n.pt" := File fresh_weights]}
           "yolov8n.pt" fresh_weights export_error
           [EvYOLO "models/yolov8n.pt" (Ok "models/yolov8n.pt");
            EvExport "models/yolov8n.pt" "onnx" [640; 640]%Z (Raise export_error)]).
  - vm_compute. reflexivity.
  - vm_compute. reflexivity.
  - vm_compute. reflexivity.
  - vm_compute. reflexivity.
  - vm_compute. discriminate.
  - vm_compute. reflexivity.
  - reflexivity.
  - vm_compute. reflexivity.
  - vm_compute. reflexivity.
Defined.

(** ** Properties beyond the claims *)

(** X1.  The loop of the verifier, for any dict of required files and any
    starting value of [all_exists]: it leaves the filesystem alone, prints
    one line per entry in order, also after a missing file has been seen,
    and returns the starting value and-ed with the existence of every
    path. *)
Theorem X1_verify_loop {Model} (items : list (string * string)) (all_exists : bool)
    (fs : FS) :
  verify_loop (Model := Model) items all_exists fs =
    (Ok (all_exists && forallb (fun item => fs_exists fs item.2) items),
     fs,
     map (fun item => EvPrint (status_line item.1 item.2 (fs_exists fs item.2))) items).
Proof.
  revert all_exists. induction items as [|[name path] rest IH]; intros acc.
  - cbn. unfold ret. by rewrite andb_true_r.
  - cbn [verify_loop]. unfold bind at 1 2. unfold os_path_exists at 1, print at 1.
    rewrite IH. cbn [app map forallb fst snd].
    by destruct (fs_exists fs path), acc.
Qed.

(** A rename that raises ends the body of the [try] with that exception,
    an [OSError], and it is the last thing the body did. *)
Lemma body_rename_raise {Model} (U : ultralytics Model) fs r fs' evs e :
  download_body U fs = (r, fs', evs) ->
  Exists (failed_rename e) evs ->
  r = Raise e /\ exn_is_Exception e = true /\
  exists src dst, last evs = Some (EvRename src dst (Raise e)).
Proof.
  intros Hrun Hex. unfold_script.
  repeat split_run; cbn [app] in Hex;
    repeat match goal with
      | H : Exists _ (_ :: _) |- _ => apply Exists_cons in H; destruct H as [H|H]
      | H : Exists _ [] |- _ => by apply Exists_nil in H
      | H : failed_rename _ _ |- _ => cbn in H; try done; subst
      end; try done;
    (split; [done|]; split;
     [eapply fs_rename_raises_Exception; eassumption | eexists _, _; reflexivity]).
Qed.

(** X2.  A failure of [os.rename], in step 3 or in step 6, is caught like
    a failure of the loader: the acquirer returns normally, and the failed
    rename is the last thing it did before the three lines of the handler;
    after a failed move of the weights no conversion is attempted. *)
Theorem X2_failed_rename_caught {Model} (U : ultralytics Model) (fs fs' : FS)
    (r : result unit) (evs : list (event Model)) (e : exn) :
  download_yolov8n_models U fs = (r, fs', evs) ->
  Exists (failed_rename e) evs ->
  r = Ok tt /\
  exists pre src dst,
    evs = (pre ++ EvRename src dst (Raise e) :: handler_lines e)%list.
Proof.
  intros Hrun Hex.
  destruct (fs_makedirs fs "models" true) as [[[]|e0] fs0] eqn:Hmk.
  - rewrite (acquirer_after_makedirs U fs fs0 Hmk), try_download_outcome in Hrun.
    destruct (download_body U fs0) as [[[[]|e1] fsb] evb] eqn:Hb.
    + inversion Hrun; subst; clear Hrun.
      apply Exists_cons in Hex as [Hex|Hex]; [done|].
      by destruct (body_rename_raise U _ _ _ _ e Hb Hex).
    + assert (Exists (failed_rename e) evb) as Hexb.
      { destruct (exn_is_Exception e1); inversion Hrun; subst; clear Hrun;
          apply Exists_cons in Hex as [Hex|Hex]; try done.
        apply Exists_app in Hex as [Hex|Hex]; [done|].
        unfold handler_lines in Hex.
        repeat (apply Exists_cons in Hex as [Hex|Hex]; [done|]).
        by apply Exists_nil in Hex. }
      destruct (body_rename_raise U _ _ _ _ e Hb Hexb) as (Heq & HE & src & dst & Hlast).
      inversion Heq; subst e1. rewrite HE in Hrun.
      inversion Hrun; subst; clear Hrun.
      split; [done|].
      apply last_Some in Hlast as [pre ->].
      exists (EvMakedirs "models" true (Ok tt) :: pre), src, dst.
      cbn [app]. by rewrite <- app_assoc.
  - rewrite (acquirer_makedirs_raises U fs fs0 e0 Hmk) in Hrun.
    inversion Hrun; subst; clear Hrun.
    apply Exists_cons in Hex as [Hex|Hex]; [done|]. by apply Exists_nil in Hex.
Qed.

(** X2 with a directory at ["models/yolov8n.pt"]. *)
Lemma X2_weights_path_blocked_run :
  Ok tt = Ok tt /\
  exists pre src dst,
    [EvMakedirs "models" true (Ok tt);
     EvPrint "Downloading YOLOv8n PyTorch model...";
     EvYOLO "yolov8n.pt" (Ok "yolov8n.pt");
     EvRename "yolov8n.pt" "models/yolov8n.pt" (Raise weights_path_is_a_directory);
     EvPrint "Error downloading models: [Errno 21] Is a directory: 'yolov8n.pt' -> 'models/yolov8n.pt'";
     EvPrint "Please make sure you have the latest ultralytics package installed:";
     EvPrint "pip install --upgrade ultralytics"] =
    (pre ++ EvRename src dst (Raise weights_path_is_a_directory)
         :: handler_lines (Model := string) weights_path_is_a_directory)%list.
Proof.
  apply (X2_failed_rename_caught downloading weights_path_blocked
           (<["yolov8n.pt" := File fresh_weights]> weights_path_blocked)).
  - vm_compute. reflexivity.
  - do 3 apply Exists_cons_tl. apply Exists_cons_hd. reflexivity.
Defined.

(** X3.  Nothing is retried.  In every run of the acquirer the directory
    is created once, each of the two paths is loaded at most once, at most
    one export is made, and each of the two destinations is the target of
    at most one rename. *)
Theorem X3_no_retry {Model} (U : ultralytics Model) (fs : FS) :
  let evs := (download_yolov8n_models U fs).2 in
  count_events is_makedirs evs = 1 /\
  count_events (is_load_of "yolov8n.pt") evs <= 1 /\
  count_events (is_load_of pt_path) evs <= 1 /\
  count_events is_export evs <= 1 /\
  count_events (is_rename_to pt_path) evs <= 1 /\
  count_events (is_rename_to onnx_path) evs <= 1.
Proof.
  unfold_script. repeat split_run; vm_compute; repeat split; lia.
Qed.

(** A rename of something that is not a directory changes only its source
    and its destination. *)
Lemma fs_rename_frame (fs fs' : FS) (src dst p : string) (r : result unit) :
  fs !! src <> Some Dir ->
  fs_rename fs src dst = (r, fs') ->
  p <> src -> p <> dst ->
  fs' !! p = fs !! p.
Proof.
  intros Hnd Hmv Hsrc Hdst. unfold fs_rename in Hmv.
  destruct (fs !! src) as [[d|]|]; [|done|by inversion Hmv].
  destruct (parent_check fs dst); [|by inversion Hmv].
  destruct (String.eqb src dst); [by inversion Hmv|].
  destruct (fs !! dst) as [[?|]|]; inversion Hmv; subst; try done;
    by rewrite lookup_insert_ne, lookup_delete_ne.
Qed.

(** Directory creation changes at most what is at [models]. *)
Lemma fs_makedirs_models_frame (fs fs' : FS) (p : string) (r : result unit) :
  fs_makedirs fs "models" true = (r, fs') ->
  p <> "models" ->
  fs' !! p = fs !! p.
Proof.
  rewrite fs_makedirs_models. intros Hmk Hp.
  destruct (fs !! "models") as [[?|]|]; inversion Hmk; subst; try done.
  by rewrite lookup_insert_ne.
Qed.

(** X4.  The acquirer touches nothing but the five paths it names.  With
    collaborators that leave path [p] alone and leave no directory in the
    place of their output file, whatever is at [p] before the run is there
    after it, for every [p] other than [models], [yolov8n.pt],
    [models/yolov8n.pt], [yolov8n.onnx] and [models/yolov8n.onnx], and
    whether or not the run met an exception. *)
Theorem X4_other_paths_untouched {Model} (U : ultralytics Model) (fs : FS) (p : string) :
  ~ In p script_paths ->
  leaves_alone U p ->
  outputs_are_files U ->
  (download_yolov8n_models U fs).1.2 !! p = fs !! p.
Proof.
  intros Hp [Hl He] [Hfl Hfe].
  assert (p <> "models" /\ p <> "yolov8n.pt" /\ p <> pt_path /\
          p <> "yolov8n.onnx" /\ p <> onnx_path) as (H1 & H2 & H3 & H4 & H5).
  { unfold script_paths in Hp. cbn [In] in Hp. repeat split; intros ->; tauto. }
  unfold_script. repeat split_run; cbn [fst snd];
    repeat match goal with
      | H : fs_makedirs ?a "models" true = (_, ?b) |- _ =>
          apply (fs_makedirs_models_frame a b p) in H; [|done]
      | H : YOLO U "yolov8n.pt" ?a = (_, ?b) |- _ =>
          let Hframe := fresh "Hframe" in
          let Hfile := fresh "Hfile" in
          pose proof (Hl "yolov8n.pt" a) as Hframe;
          pose proof (Hfl a) as Hfile;
          rewrite H in Hframe, Hfile; cbn [snd] in Hframe, Hfile; clear H
      | H : YOLO U pt_path ?a = (_, ?b) |- _ =>
          let Hframe := fresh "Hframe" in
          pose proof (Hl pt_path a) as Hframe;
          rewrite H in Hframe; cbn [snd] in Hframe; clear H
      | H : export U ?m ?f ?sz ?a = (_, ?b) |- _ =>
          let Hframe := fresh "Hframe" in
          let Hfile := fresh "Hfile" in
          pose proof (He m f sz a) as Hframe;
          pose proof (Hfe m f sz a) as Hfile;
          rewrite H in Hframe, Hfile; cbn [snd] in Hframe, Hfile; clear H
      end;
    repeat match goal with
      | H : fs_rename ?a ?src ?dst = (_, ?b) |- _ =>
          apply (fs_rename_frame a b src dst p) in H; [|done..]
      end;
    congruence.
Qed.

Lemma downloading_leaves_notes_alone : leaves_alone downloading "notes.txt".
Proof.
  split.
  - intros path fs. cbn. destruct (String.eqb path "yolov8n.pt"); cbn; [|done].
    by rewrite lookup_insert_ne.
  - intros m format imgsz fs. cbn. by rewrite lookup_insert_ne.
Qed.

Lemma downloading_outputs_are_files : outputs_are_files downloading.
Proof.
  split.
  - intros fs. cbn. by rewrite lookup_insert_eq.
  - intros m format imgsz fs. cbn. by rewrite lookup_insert_eq.
Qed.

(** X4 for a file of the user in the working directory. *)
Lemma X4_notes_survive :
  (download_yolov8n_models downloading {["notes.txt" := File notes]}).1.2 !! "notes.txt" =
    ({["notes.txt" := File notes]} : FS) !! "notes.txt".
Proof.
  apply (X4_other_paths_untouched downloading {["notes.txt" := File notes]} "notes.txt").
  - cbn. intros H. repeat destruct H as [H|H]; try discriminate H. exact H.
  - apply downloading_leaves_notes_alone.
  - apply downloading_outputs_are_files.
Defined.

(** One run with collaborators that deposit their outputs in the working
    directory, when nothing but files can be in the way in the models
    directory. *)
Lemma deposit_run {Model} (U : ultralytics Model) (w o : list Byte.byte) (fs fs0 : FS) :
  deposits_in_cwd U w o ->
  fs_makedirs fs "models" true = (Ok tt, fs0) ->
  fs !! pt_path <> Some Dir ->
  fs !! onnx_path <> Some Dir ->
  exists (fs1 : FS) (evs : list (event Model)),
    download_yolov8n_models U fs = (Ok tt, fs1, evs) /\
    fs1 !! "models" = Some Dir /\
    fs1 !! "yolov8n.pt" = None /\
    fs1 !! pt_path = Some (File w) /\
    is_Some (fs1 !! onnx_path) /\
    fs1 !! onnx_path <> Some Dir /\
    (is_Some (fs !! onnx_path) ->
     fs1 = <[pt_path := File w]> (delete "yolov8n.pt" fs0) /\
     Forall (fun ev => is_conversion_call ev = false) evs).
Proof.
  intros (Hload & Hload2 & Hexp) Hmk Hpt Honnx.
  destruct (fs_makedirs_models_ok fs fs0 Hmk) as [Hdir Hsame].
  destruct (Hload fs0) as [m1 Hl1].
  set (fsA := <["yolov8n.pt" := File w]> fs0) in *.
  set (fsB := <[pt_path := File w]> (delete "yolov8n.pt" fsA)).
  assert (fs_rename fsA "yolov8n.pt" pt_path = (Ok tt, fsB)) as Hmv1.
  { apply fs_rename_primary; subst fsA.
    - apply lookup_insert_eq.
    - by rewrite lookup_insert_ne.
    - rewrite lookup_insert_ne by done. by rewrite Hsame. }
  assert (fsB = <[pt_path := File w]> (delete "yolov8n.pt" fs0)) as HfsB
    by (subst fsB fsA; by rewrite delete_insert_eq).
  assert (fsB !! pt_path = Some (File w)) as HptB by apply lookup_insert_eq.
  assert (fsB !! "yolov8n.pt" = None) as HsrcB.
  { rewrite HfsB. rewrite lookup_insert_ne by done. apply lookup_delete_eq. }
  assert (fsB !! "models" = Some Dir) as HdirB.
  { rewrite HfsB. by rewrite lookup_insert_ne, lookup_delete_ne. }
  assert (fsB !! onnx_path = fs !! onnx_path) as HonnxB.
  { rewrite HfsB. rewrite lookup_insert_ne, lookup_delete_ne by done. by apply Hsame. }
  destruct (fs !! onnx_path) as [n|] eqn:Hn.
  - exists fsB. eexists. split; [|repeat split].
    + unfold download_yolov8n_models, try_except, download_body, relocate_primary,
        convert_secondary, bind, print, os_makedirs, call_YOLO, os_path_exists,
        os_rename, ret, fs_exists.
      rewrite Hmk, Hl1. fold fsA.
      replace (fsA !! "yolov8n.pt") with (Some (File w))
        by (symmetry; apply lookup_insert_eq).
      rewrite Hmv1, HonnxB. cbn [negb app]. reflexivity.
    + done.
    + done.
    + done.
    + rewrite HonnxB. by eexists.
    + by rewrite HonnxB.
    + done.
    + by repeat constructor.
  - destruct (Hload2 fsB) as [m2 Hl2]; [by eexists|].
    set (fsC := <["yolov8n.onnx" := File o]> fsB).
    set (fsD := <[onnx_path := File o]> (delete "yolov8n.onnx" fsC)).
    assert (fs_rename fsC "yolov8n.onnx" onnx_path = (Ok tt, fsD)) as Hmv2.
    { apply fs_rename_secondary; subst fsC.
      - apply lookup_insert_eq.
      - by rewrite lookup_insert_ne.
      - rewrite lookup_insert_ne by done. by rewrite HonnxB. }
    exists fsD. eexists. split; [|repeat split].
    + unfold download_yolov8n_models, try_except, download_body, relocate_primary,
        convert_secondary, bind, print, os_makedirs, call_YOLO, os_path_exists,
        os_rename, call_export, ret, fs_exists.
      rewrite Hmk, Hl1. fold fsA.
      replace (fsA !! "yolov8n.pt") with (Some (File w))
        by (symmetry; apply lookup_insert_eq).
      rewrite Hmv1, HonnxB. cbn [negb]. rewrite Hl2, Hexp. fold fsC.
      replace (fsC !! "yolov8n.onnx") with (Some (File o))
        by (symmetry; apply lookup_insert_eq).
      rewrite Hmv2. reflexivity.
    + subst fsD fsC. by rewrite lookup_insert_ne, lookup_delete_ne, lookup_insert_ne.
    + subst fsD fsC. by rewrite lookup_insert_ne, lookup_delete_ne, lookup_insert_ne.
    + subst fsD fsC. by rewrite lookup_insert_ne, lookup_delete_ne, lookup_insert_ne.
    + subst fsD. rewrite lookup_insert_eq. by eexists.
    + subst fsD. by rewrite lookup_insert_eq.
    + exfalso. eapply is_Some_None. eassumption.
    + exfalso. eapply is_Some_None. eassumption.
Qed.

(** X5.  Running the acquirer twice.  With a loader and a converter that
    deposit their outputs in the working directory, the same weights each
    time, a first run that finds no directory in the way leaves a
    filesystem on which a second run changes nothing at all, loads nothing
    from the models directory and exports nothing. *)
Theorem X5_second_run_is_identity {Model} (U : ultralytics Model)
    (w o : list Byte.byte) (fs fs0 : FS) :
  deposits_in_cwd U w o ->
  fs_makedirs fs "models" true = (Ok tt, fs0) ->
  fs !! pt_path <> Some Dir ->
  fs !! onnx_path <> Some Dir ->
  exists (fs1 : FS) (evs1 evs2 : list (event Model)),
    download_yolov8n_models U fs = (Ok tt, fs1, evs1) /\
    download_yolov8n_models U fs1 = (Ok tt, fs1, evs2) /\
    Forall (fun ev => is_conversion_call ev = false) evs2.
Proof.
  intros Hdep Hmk Hpt Honnx.
  destruct (deposit_run U w o fs fs0 Hdep Hmk Hpt Honnx)
    as (fs1 & evs1 & Hrun1 & Hdir1 & Hsrc1 & Hpt1 & Ho1 & Hod1 & _).
  assert (fs_makedirs fs1 "models" true = (Ok tt, fs1)) as Hmk1
    by (by rewrite fs_makedirs_models, Hdir1).
  destruct (deposit_run U w o fs1 fs1 Hdep Hmk1) as (fs2 & evs2 & Hrun2 & Hrest);
    [by rewrite Hpt1|done|].
  destruct Hrest as (_ & _ & _ & _ & _ & Hskip).
  destruct (Hskip Ho1) as [-> Hev].
  rewrite (delete_id fs1 "yolov8n.pt" Hsrc1) in Hrun2.
  rewrite (insert_id fs1 pt_path (File w) Hpt1) in Hrun2.
  by exists fs1, evs1, evs2.
Qed.

(** X5 for the sample loader, from an empty working directory. *)
Lemma X5_downloading_twice :
  exists (fs1 : FS) (evs1 evs2 : list (event string)),
    download_yolov8n_models downloading ∅ = (Ok tt, fs1, evs1) /\
    download_yolov8n_models downloading fs1 = (Ok tt, fs1, evs2) /\
    Forall (fun ev => is_conversion_call ev = false) evs2.
Proof.
  apply (X5_second_run_is_identity downloading fresh_weights onnx_bytes ∅
           {["models" := Dir]}).
  - apply downloading_deposits_in_cwd.
  - vm_compute. reflexivity.
  - vm_compute. discriminate.
  - vm_compute. discriminate.
Defined.

(** X6.  Step 6 takes whatever is at ["yolov8n.onnx"] in the working
    directory after the export, fresh or not.  After a successful load and
    export, with no directories in the way: when the working directory has
    that file it is moved to ["models/yolov8n.onnx"], replacing what the
    exporter may have written there; when it has none, what the exporter
    left at ["models/yolov8n.onnx"] stays. *)
Theorem X6_working_directory_file_wins {Model} (U : ultralytics Model)
    (fs fs1 fs2 : FS) (m : Model) :
  fs !! onnx_path = None ->
  YOLO U pt_path fs = (Ok m, fs1) ->
  export U m "onnx" [640; 640]%Z fs1 = (Ok tt, fs2) ->
  fs2 !! "models" = Some Dir ->
  fs2 !! onnx_path <> Some Dir ->
  fs2 !! "yolov8n.onnx" <> Some Dir ->
  exists (fs' : FS) (evs : list (event Model)),
    convert_secondary U fs = (Ok tt, fs', evs) /\
    fs' !! "yolov8n.onnx" = None /\
    fs' !! onnx_path =
      match fs2 !! "yolov8n.onnx" with
      | Some n => Some n
      | None => fs2 !! onnx_path
      end.
Proof.
  intros Hno Hload Hexp Hdir Hdst Hsrc.
  unfold convert_secondary, bind, os_path_exists, call_YOLO, call_export, os_rename,
    ret, fs_exists.
  rewrite Hno. cbn [negb]. rewrite Hload, Hexp.
  destruct (fs2 !! "yolov8n.onnx") as [[d|]|] eqn:Hcwd; [|done|].
  - rewrite (fs_rename_secondary fs2 d Hcwd Hdir Hdst).
    eexists _, _. split; [reflexivity|]. split.
    + rewrite lookup_insert_ne by done. apply lookup_delete_eq.
    + apply lookup_insert_eq.
  - eexists _, _. split; [reflexivity|]. by split.
Qed.

(** X6 with an exporter that writes into the models directory, and a
    file left at ["yolov8n.onnx"] by something else: the left-over file
    ends up as the model. *)
Lemma X6_stale_file_replaces_export :
  exists (fs' : FS) (evs : list (event string)),
    convert_secondary exporting_in_place
      {["models" := Dir; "models/yolov8n.pt" := File fresh_weights;
        "yolov8n.onnx" := File stale_onnx]} = (Ok tt, fs', evs) /\
    fs' !! "yolov8n.onnx" = None /\
    fs' !! onnx_path = Some (File stale_onnx).
Proof.
  refine (X6_working_directory_file_wins exporting_in_place
           {["models" := Dir; "models/yolov8n.pt" := File fresh_weights;
             "yolov8n.onnx" := File stale_onnx]}
           {["models" := Dir; "models/yolov8n.pt" := File fresh_weights;
             "yolov8n.onnx" := File stale_onnx]}
           {["models" := Dir; "models/yolov8n.pt" := File fresh_weights;
             "models/yolov8n.onnx" := File onnx_bytes;
             "yolov8n.onnx" := File stale_onnx]}
           "models/yolov8n.pt" _ _ _ _ _ _).
  - vm_compute. reflexivity.
  - vm_compute. reflexivity.
  - vm_compute. reflexivity.
  - vm_compute. reflexivity.
  - vm_compute. discriminate.
  - vm_compute. discriminate.
Defined.

(** Give the part of a run's output before its last three lines. *)
Ltac give_prefix :=
  lazymatch goal with
  | |- exists pre, ?evs = _ =>
      exists (take (List.length evs - 3) evs); cbv; reflexivity
  | |- exists pre e, _ /\ ?evs = _ =>
      exists (take (List.length evs - 3) evs); eexists;
      split; cycle 1; [cbv; reflexivity | eassumption]
  end.

(** An exception of [os.rename] that is no instance of [Exception]: there
    is none. *)
Ltac no_such_rename :=
  match goal with
  | H : fs_rename _ _ _ = (Raise ?e, _), H' : exn_is_Exception ?e = false |- _ =>
      rewrite (fs_rename_raises_Exception _ _ _ _ _ H) in H'; discriminate H'
  end.

(** X7.  Once the directory is there, a run of the acquirer ends in
    exactly one of three ways.  It returns with the three completion lines
    last, and then no error line was printed.  Or it returns with the three
    lines of the handler last, for an instance of [Exception], and then
    "Download complete!" was not printed.  Or it ends with an exception of
    the loader or the converter that is no instance of [Exception], and
    then neither was printed. *)
Theorem X7_one_ending {Model} (U : ultralytics Model) (fs fs0 : FS) :
  fs_makedirs fs "models" true = (Ok tt, fs0) ->
  let run := download_yolov8n_models U fs in
  (run.1.1 = Ok tt /\
   (exists pre, run.2 = (pre ++ completion_lines)%list) /\
   count_events is_error_print run.2 = 0) \/
  (run.1.1 = Ok tt /\
   (exists pre e, exn_is_Exception e = true /\ run.2 = (pre ++ handler_lines e)%list) /\
   count_events is_completion_print run.2 = 0) \/
  (exists e,
     run.1.1 = Raise e /\
     exn_is_Exception e = false /\
     Exists (raised_by_collaborator e) run.2 /\
     count_events is_completion_print run.2 = 0 /\
     count_events is_error_print run.2 = 0).
Proof.
  intros Hmk. unfold_script. rewrite Hmk.
  repeat split_run; cbn [fst snd app];
    first
      [ no_such_rename
      | solve [ left; split; [reflexivity|]; split;
                [give_prefix | vm_compute; reflexivity] ]
      | solve [ right; left; split; [reflexivity|]; split;
                [give_prefix | vm_compute; reflexivity] ]
      | solve [ right; right; eexists; split; [reflexivity|]; split; [eassumption|];
                split;
                [ repeat first [ apply Exists_cons_hd; reflexivity | apply Exists_cons_tl ]
                | split; vm_compute; reflexivity ] ] ].
Qed.

(** X7 for a run without network. *)
Lemma X7_offline_ending :
  ((download_yolov8n_models offline ∅).1.1 = Ok tt /\
   (exists pre, (download_yolov8n_models offline ∅).2 = (pre ++ completion_lines)%list) /\
   count_events is_error_print (download_yolov8n_models offline ∅).2 = 0) \/
  ((download_yolov8n_models offline ∅).1.1 = Ok tt /\
   (exists pre e,
      exn_is_Exception e = true /\
      (download_yolov8n_models offline ∅).2 = (pre ++ handler_lines e)%list) /\
   count_events is_completion_print (download_yolov8n_models offline ∅).2 = 0) \/
  (exists e,
     (download_yolov8n_models offline ∅).1.1 = Raise e /\
     exn_is_Exception e = false /\
     Exists (raised_by_collaborator e) (download_yolov8n_models offline ∅).2 /\
     count_events is_completion_print (download_yolov8n_models offline ∅).2 = 0 /\
     count_events is_error_print (download_yolov8n_models offline ∅).2 = 0).
Proof.
  apply (X7_one_ending offline ∅ {["models" := Dir]}).
  vm_compute. reflexivity.
Defined.
